(** * Aspia host: desktop session manager and desktop environment

    A shallow embedding of
    - [source/host/desktop_session_manager.cc] (module [Host]) and
    - [source/desktop/win/desktop_environment.cc] (module [Desktop]).

    Every member function becomes a command over an explicit world: the
    data members of the object, plus the part of the environment the code
    talks to (task runner, heap, channel id generator, clock).  A command
    returns the new world together with the effects it performed, in
    program order. *)

From Stdlib Require Import String List Bool Arith Lia.
Import ListNotations.

(* ===================================================================== *)
Module Host.

(** ** Data *)

(** [enum class State] of [DesktopSessionManager]. *)
Inductive State : Type := STOPPED | STARTING | ATTACHED | DETACHED | STOPPING.

Definition State_eqb (a b : State) : bool :=
  match a, b with
  | STOPPED, STOPPED | STARTING, STARTING | ATTACHED, ATTACHED
  | DETACHED, DETACHED | STOPPING, STOPPING => true
  | _, _ => false
  end.

Definition SessionId := nat.      (* base::SessionId *)
Definition ChannelId := nat.      (* std::u16string channel_id *)
Definition Path := string.        (* std::filesystem::path *)
Definition Location := string.    (* base::Location, FROM_HERE *)
Definition ObjId := nat.          (* identity of a heap object *)

(** [base::IpcChannel]: an established connection.  [peerFilePath] is what
    the manager reads; [channel_name] is the rendezvous name the peer
    connected to. *)
Record IpcChannel : Type := {
  peerFilePath : Path;
  channel_name : ChannelId
}.

(** [base::IpcServer]: [server_endpoint] is [Some id] while the server
    listens on [id]. *)
Record IpcServer : Type := {
  server_obj : ObjId;
  server_endpoint : option ChannelId
}.

(** The two [DesktopSession] implementations the manager creates. *)
Inductive SessionKind : Type :=
| DesktopSessionFake
| DesktopSessionIpc (channel : IpcChannel).

Record DesktopSession : Type := {
  session_obj : ObjId;
  session_kind : SessionKind
}.

(** The two lambdas given to [session_attach_timer_.start]. *)
Inductive TimerCallback : Type :=
| AttachTimeout       (* attachSession, lines 62-66 *)
| ReattachTimeout.    (* dettachSession, lines 117-121 *)

Record Timer : Type := {
  deadline : nat;
  callback : TimerCallback
}.

(** The [LOG] statements of the file, one constructor each. *)
Inductive LogLine : Type :=
| LogCtor
| LogDtor
| LogAttachSession (session_id : SessionId) (location : Location)
| LogAttachTimeout                       (* LS_WARNING *)
| LogServerStartFailed                   (* LS_ERROR *)
| LogProcessCreateFailed                 (* LS_ERROR *)
| LogProcessCreated
| LogAlreadyStoppedOrDettached (s : State)
| LogDettachSession (location : Location)
| LogProcessDetached
| LogWaitTimeout                         (* LS_ERROR *)
| LogUnknownApplication                  (* LS_ERROR *)
| LogProcessConnected
| LogServerExists.

(** What a command does besides changing the data members. *)
Inductive Effect : Type :=
| Log (line : LogLine)
| StateSet (s : State)                          (* state_ = s *)
| TimerStart (t : Timer)
| TimerStop
| UniqueId (id : ChannelId)                     (* IpcServer::createUniqueId *)
| ServerNew (o : ObjId)                         (* make_unique<IpcServer> *)
| ServerStart (o : ObjId) (id : ChannelId) (ok : bool)
| ServerStop (o : ObjId)
| ProcessCreate (sid : SessionId) (id : ChannelId) (ok : bool)
| SessionNew (s : DesktopSession)               (* make_unique<DesktopSession...> *)
| Destroyed (o : ObjId)                         (* destructor ran *)
| DeleteSoon (o : ObjId)                        (* task_runner_->deleteSoon *)
| ProxyAttachAndStart (o : ObjId)
| ProxyStopAndDettach (bound : option ObjId)
| DelegateSessionStarted.                       (* delegate_->onDesktopSessionStarted *)

(** The data members of [DesktopSessionManager] and, below the line, the
    environment it runs in. *)
Record World : Type := {
  state_ : State;
  server_ : option IpcServer;               (* std::unique_ptr<base::IpcServer> *)
  session_ : option DesktopSession;         (* std::unique_ptr<DesktopSession> *)
  session_attach_timer_ : option Timer;     (* armed deadline, if any *)
  session_proxy_ : option ObjId;            (* session bound in the proxy *)
  (* ------------------------------------------------------------------ *)
  task_runner_ : list ObjId;                (* deleteSoon tasks not yet run *)
  heap_next : ObjId;                        (* next fresh object identity *)
  channel_next : ChannelId;                 (* next fresh channel id *)
  now : nat                                 (* clock, in seconds *)
}.

Definition set_state (s : State) (w : World) : World :=
  {| state_ := s; server_ := server_ w; session_ := session_ w;
     session_attach_timer_ := session_attach_timer_ w;
     session_proxy_ := session_proxy_ w; task_runner_ := task_runner_ w;
     heap_next := heap_next w; channel_next := channel_next w; now := now w |}.

Definition set_server (s : option IpcServer) (w : World) : World :=
  {| state_ := state_ w; server_ := s; session_ := session_ w;
     session_attach_timer_ := session_attach_timer_ w;
     session_proxy_ := session_proxy_ w; task_runner_ := task_runner_ w;
     heap_next := heap_next w; channel_next := channel_next w; now := now w |}.

Definition set_session (s : option DesktopSession) (w : World) : World :=
  {| state_ := state_ w; server_ := server_ w; session_ := s;
     session_attach_timer_ := session_attach_timer_ w;
     session_proxy_ := session_proxy_ w; task_runner_ := task_runner_ w;
     heap_next := heap_next w; channel_next := channel_next w; now := now w |}.

Definition set_timer (t : option Timer) (w : World) : World :=
  {| state_ := state_ w; server_ := server_ w; session_ := session_ w;
     session_attach_timer_ := t;
     session_proxy_ := session_proxy_ w; task_runner_ := task_runner_ w;
     heap_next := heap_next w; channel_next := channel_next w; now := now w |}.

Definition set_proxy (p : option ObjId) (w : World) : World :=
  {| state_ := state_ w; server_ := server_ w; session_ := session_ w;
     session_attach_timer_ := session_attach_timer_ w;
     session_proxy_ := p; task_runner_ := task_runner_ w;
     heap_next := heap_next w; channel_next := channel_next w; now := now w |}.

Definition set_tasks (q : list ObjId) (w : World) : World :=
  {| state_ := state_ w; server_ := server_ w; session_ := session_ w;
     session_attach_timer_ := session_attach_timer_ w;
     session_proxy_ := session_proxy_ w; task_runner_ := q;
     heap_next := heap_next w; channel_next := channel_next w; now := now w |}.

Definition set_heap (n : ObjId) (w : World) : World :=
  {| state_ := state_ w; server_ := server_ w; session_ := session_ w;
     session_attach_timer_ := session_attach_timer_ w;
     session_proxy_ := session_proxy_ w; task_runner_ := task_runner_ w;
     heap_next := n; channel_next := channel_next w; now := now w |}.

Definition set_channel (n : ChannelId) (w : World) : World :=
  {| state_ := state_ w; server_ := server_ w; session_ := session_ w;
     session_attach_timer_ := session_attach_timer_ w;
     session_proxy_ := session_proxy_ w; task_runner_ := task_runner_ w;
     heap_next := heap_next w; channel_next := n; now := now w |}.

Definition set_now (n : nat) (w : World) : World :=
  {| state_ := state_ w; server_ := server_ w; session_ := session_ w;
     session_attach_timer_ := session_attach_timer_ w;
     session_proxy_ := session_proxy_ w; task_runner_ := task_runner_ w;
     heap_next := heap_next w; channel_next := channel_next w; now := n |}.

(** ** Commands *)

Definition Cmd : Type := World -> World * list Effect.

Definition skip : Cmd := fun w => (w, []).

Definition emit (e : Effect) : Cmd := fun w => (w, [e]).

Definition seq (c1 c2 : Cmd) : Cmd :=
  fun w => let r1 := c1 w in
           let r2 := c2 (fst r1) in
           (fst r2, snd r1 ++ snd r2).

Declare Scope cmd_scope.
Delimit Scope cmd_scope with cmd.
Bind Scope cmd_scope with Cmd.
Notation "c1 ;; c2" := (seq c1 c2)
  (at level 61, right associativity) : cmd_scope.
Open Scope cmd_scope.

(** [if (cond) body else other], the condition read from the members. *)
Definition ifc (cond : World -> bool) (body other : Cmd) : Cmd :=
  fun w => if cond w then body w else other w.

Definition state_is (s : State) : World -> bool :=
  fun w => State_eqb (state_ w) s.

Definition log (l : LogLine) : Cmd := emit (Log l).

(** [state_ = s;] *)
Definition assign_state (s : State) : Cmd :=
  fun w => (set_state s w, [StateSet s]).

(** ** The collaborators that are not part of the two files *)

Definition minutes (n : nat) : nat := 60 * n.   (* std::chrono::minutes *)

(** Modelled from the spec: [base::WaitableTimer::start] of a SINGLE_SHOT
    timer ("single-shot, at most one pending deadline at a time"); the
    class is absent from the sources at hand.  [start] replaces the pending
    deadline. *)
Definition timer_start (d : nat) (cb : TimerCallback) : Cmd :=
  fun w => let t := {| deadline := now w + d; callback := cb |} in
           (set_timer (Some t) w, [TimerStart t]).

(** Modelled from the spec: [base::WaitableTimer::stop] ("cancel the
    current timer"); absent from the sources at hand. *)
Definition timer_stop : Cmd :=
  fun w => (set_timer None w, [TimerStop]).

(** Modelled from the spec: [DesktopSessionProxy::attachAndStart]
    ("binds a new Session and starts it"); the class is absent from the
    sources at hand. *)
Definition proxy_attachAndStart (o : ObjId) : Cmd :=
  fun w => (set_proxy (Some o) w, [ProxyAttachAndStart o]).

(** Modelled from the spec: [DesktopSessionProxy::stopAndDettach] ("stops
    and unbinds the current Session"). *)
Definition proxy_stopAndDettach : Cmd :=
  fun w => (set_proxy None w, [ProxyStopAndDettach (session_proxy_ w)]).

(** Modelled from the spec: [base::TaskRunner::deleteSoon] ("deferred, not
    inline"), absent from the sources at hand: the object is queued and
    destroyed when the task runner next runs its tasks ([run_tasks]).
    Here [task_runner_->deleteSoon(std::move(session_))]: the member is
    moved from and left null; a null pointer queues nothing. *)
Definition deleteSoon_session : Cmd :=
  fun w => match session_ w with
           | Some s => (set_tasks (task_runner_ w ++ [session_obj s])
                          (set_session None w), [DeleteSoon (session_obj s)])
           | None => (w, [])
           end.

(** Modelled from the spec: [base::TaskRunner::deleteSoon], as above, for
    [task_runner_->deleteSoon(std::move(server_))]. *)
Definition deleteSoon_server : Cmd :=
  fun w => match server_ w with
           | Some s => (set_tasks (task_runner_ w ++ [server_obj s])
                          (set_server None w), [DeleteSoon (server_obj s)])
           | None => (w, [])
           end.

(** Modelled from the spec: the task runner reaching the queued deletions
    ("processed on the next scheduler tick"). *)
Definition run_tasks : Cmd :=
  fun w => (set_tasks [] w, map Destroyed (task_runner_ w)).

(** Modelled from the spec: [base::IpcServer::createUniqueId] ("generated
    fresh per attach attempt"), absent from the sources at hand: a
    counter, read and advanced. *)
Definition createUniqueId (k : ChannelId -> Cmd) : Cmd :=
  fun w => let id := channel_next w in
           (emit (UniqueId id) ;; k id) (set_channel (S id) w).

(** [ptr = std::make_unique<T>(...)]: the new object is built, then the
    assignment destroys the object the pointer owned before. *)
Definition destroyed (o : option ObjId) : list Effect :=
  match o with Some x => [Destroyed x] | None => [] end.

Definition assign_new_server : Cmd :=
  fun w => let o := heap_next w in
           (set_server (Some {| server_obj := o; server_endpoint := None |})
              (set_heap (S o) w),
            ServerNew o :: destroyed (option_map server_obj (server_ w))).

Definition assign_new_session (k : SessionKind) : Cmd :=
  fun w => let s := {| session_obj := heap_next w; session_kind := k |} in
           (set_session (Some s) (set_heap (S (heap_next w)) w),
            SessionNew s :: destroyed (option_map session_obj (session_ w))).

(** Modelled from the spec: [base::IpcServer::start] ("opens exactly one
    listening endpoint bound to the given identifier; returns failure if
    the endpoint cannot be created"); the class is absent from the sources
    at hand.  Whether the endpoint can be created is the environment's
    choice [ok]. *)
Definition server_start (id : ChannelId) (ok : bool) : Cmd :=
  fun w => match server_ w with
           | Some s =>
               (set_server (Some {| server_obj := server_obj s;
                                    server_endpoint := if ok then Some id else None |}) w,
                [ServerStart (server_obj s) id ok])
           | None => (w, [])
           end.

(** Modelled from the spec: [base::IpcServer::stop] ("closes it"). *)
Definition server_stop : Cmd :=
  fun w => match server_ w with
           | Some s =>
               (set_server (Some {| server_obj := server_obj s;
                                    server_endpoint := None |}) w,
                [ServerStop (server_obj s)])
           | None => (w, [])
           end.

(** [session_proxy_->attachAndStart(session_.get())] *)
Definition proxy_attach_current : Cmd :=
  fun w => match session_ w with
           | Some s => proxy_attachAndStart (session_obj s) w
           | None => (w, [])
           end.

(** ** The member functions of [DesktopSessionManager] *)

Section Manager.

(** [DesktopSessionProcess::filePath()], the expected worker executable. *)
Variable filePath : Path.

Definition is_some {A : Type} (o : option A) : bool :=
  match o with Some _ => true | None => false end.

(** The world a freshly constructed manager starts in (constructor, lines
    33-41): nothing owned, timer idle, proxy empty.  The initial value of
    [state_] is set in the header; modelled from the spec: the state
    machine starts in Stopped. *)
Definition ctor (clock : nat) : World :=
  {| state_ := STOPPED; server_ := None; session_ := None;
     session_attach_timer_ := None; session_proxy_ := None;
     task_runner_ := []; heap_next := 0; channel_next := 0; now := clock |}.

(** [void DesktopSessionManager::dettachSession(const base::Location&)] *)
Definition dettachSession (location : Location) : Cmd :=
  ifc (fun w => state_is STOPPED w || state_is DETACHED w)
    (fun w => log (LogAlreadyStoppedOrDettached (state_ w)) w)
    ( log (LogDettachSession location) ;;
      ifc (fun w => negb (state_is STOPPING w)) (assign_state DETACHED) skip ;;
      timer_stop ;;
      proxy_stopAndDettach ;;
      deleteSoon_session ;;
      log LogProcessDetached ;;
      ifc (state_is STOPPING)
        skip
        ( timer_start (minutes 1) ReattachTimeout ;;
          (* The real session process has ended. We create a temporary
             fake session. *)
          assign_new_session DesktopSessionFake ;;
          proxy_attach_current ) ).

(** [void DesktopSessionManager::onErrorOccurred()] *)
Definition onErrorOccurred : Cmd :=
  ifc (fun w => state_is STOPPED w || state_is STOPPING w)
    skip
    ( assign_state STOPPING ;;
      dettachSession "onErrorOccurred"%string ;;
      assign_state STOPPED ).

(** [DesktopSessionManager::~DesktopSessionManager()], the body. *)
Definition dtor : Cmd :=
  log LogDtor ;;
  assign_state STOPPING ;;
  dettachSession "~DesktopSessionManager"%string.

(** [void DesktopSessionManager::attachSession(location, session_id)].
    [start_ok] is what [server_->start] returns and [create_ok] whether
    [DesktopSessionProcess::create] returns a process. *)
Definition attachSession (location : Location) (session_id : SessionId)
    (start_ok create_ok : bool) : Cmd :=
  ifc (state_is ATTACHED)
    skip
    ( log (LogAttachSession session_id location) ;;
      ifc (state_is STOPPED) (timer_start (minutes 1) AttachTimeout) skip ;;
      assign_state STARTING ;;
      createUniqueId (fun channel_id =>
        assign_new_server ;;
        server_start channel_id start_ok ;;
        if negb start_ok then
          log LogServerStartFailed ;; onErrorOccurred
        else
          emit (ProcessCreate session_id channel_id create_ok) ;;
          if negb create_ok then
            log LogProcessCreateFailed ;; onErrorOccurred
          else
            log LogProcessCreated) ).

(** [void DesktopSessionManager::onNewConnection(std::unique_ptr<IpcChannel>)] *)
Definition onNewConnection (channel : IpcChannel) : Cmd :=
  ifc (fun _ => negb (String.eqb filePath (peerFilePath channel)))
    (log LogUnknownApplication)
    ( log LogProcessConnected ;;
      timer_stop ;;
      ifc (fun w => is_some (server_ w))
        (log LogServerExists ;; server_stop ;; deleteSoon_server)
        skip ;;
      assign_new_session (DesktopSessionIpc channel) ;;
      assign_state ATTACHED ;;
      proxy_attach_current ).

(** [void DesktopSessionManager::onDesktopSessionStarted()] *)
Definition onDesktopSessionStarted : Cmd := emit DelegateSessionStarted.

(** [void DesktopSessionManager::onDesktopSessionStopped()] *)
Definition onDesktopSessionStopped : Cmd :=
  dettachSession "onDesktopSessionStopped"%string.

(** The body of the lambda the timer was started with. *)
Definition run_callback (cb : TimerCallback) : Cmd :=
  match cb with
  | AttachTimeout => log LogAttachTimeout ;; onErrorOccurred
  | ReattachTimeout => log LogWaitTimeout ;; onErrorOccurred
  end.

(** ** The environment: what can happen to a manager *)

Inductive Event : Type :=
| EvAttachSession (location : Location) (session_id : SessionId)
                  (start_ok create_ok : bool)
| EvDettachSession (location : Location)
| EvConnect (id : ChannelId) (peer : Path)   (* a process connects to channel [id] *)
| EvElapse (dt : nat)                        (* [dt] seconds pass *)
| EvSessionStarted                           (* the owned session reports start *)
| EvSessionStopped                           (* the owned session reports stop *)
| EvRunTasks.                                (* the task runner runs its tasks *)

(** Modelled from the spec: the [base::IpcServer] calling its delegate ("on
    an inbound connection, the server hands the raw connection plus the
    peer's resolved executable path to the controller's onNewConnection").
    A connection reaches [onNewConnection] only through the server the
    manager owns, and only while that server listens on the channel. *)
Definition deliver (id : ChannelId) (peer : Path) : Cmd :=
  fun w => match server_ w with
           | Some s =>
               match server_endpoint s with
               | Some id' =>
                   if Nat.eqb id id'
                   then onNewConnection {| peerFilePath := peer; channel_name := id |} w
                   else (w, [])
               | None => (w, [])
               end
           | None => (w, [])
           end.

(** Modelled from the spec: the [base::WaitableTimer] firing.  Time passes;
    a single-shot timer whose deadline is reached runs its callback once. *)
Definition elapse (dt : nat) : Cmd :=
  fun w => let w' := set_now (now w + dt) w in
           match session_attach_timer_ w' with
           | Some t =>
               if deadline t <=? now w'
               then run_callback (callback t) (set_timer None w')
               else (w', [])
           | None => (w', [])
           end.

Definition step (e : Event) : Cmd :=
  match e with
  | EvAttachSession location session_id start_ok create_ok =>
      attachSession location session_id start_ok create_ok
  | EvDettachSession location => dettachSession location
  | EvConnect id peer => deliver id peer
  | EvElapse dt => elapse dt
  | EvSessionStarted => ifc (fun w => is_some (session_ w)) onDesktopSessionStarted skip
  | EvSessionStopped => ifc (fun w => is_some (session_ w)) onDesktopSessionStopped skip
  | EvRunTasks => run_tasks
  end.

Fixpoint run (es : list Event) : Cmd :=
  match es with
  | [] => skip
  | e :: es' => step e ;; run es'
  end.

(** The worlds a manager can be in between two calls. *)
Definition reachable (w : World) : Prop :=
  exists clock es, w = fst (run es (ctor clock)).

(** ** What holds between two calls *)

(** The timer is armed exactly in [STARTING] and [DETACHED], with a
    deadline that is still ahead and at most one minute away. *)
Definition timer_ok (w : World) : Prop :=
  match state_ w with
  | STARTING | DETACHED =>
      exists t, session_attach_timer_ w = Some t /\
                now w < deadline t /\ deadline t <= now w + minutes 1
  | _ => session_attach_timer_ w = None
  end.

(** Which session the manager owns in which state. *)
Definition session_ok (w : World) : Prop :=
  match state_ w with
  | STOPPED => session_ w = None
  | STARTING =>
      forall s, session_ w = Some s -> session_kind s = DesktopSessionFake
  | ATTACHED =>
      (exists s ch, session_ w = Some s /\ session_kind s = DesktopSessionIpc ch)
      /\ server_ w = None
  | DETACHED =>
      exists s, session_ w = Some s /\ session_kind s = DesktopSessionFake
  | STOPPING => False
  end.

(** The proxy is bound to the owned session, or to nothing when none is
    owned. *)
Definition proxy_ok (w : World) : Prop :=
  session_proxy_ w = option_map session_obj (session_ w).

(** A listening server listens on the identifier generated last. *)
Definition server_ok (w : World) : Prop :=
  forall s id, server_ w = Some s -> server_endpoint s = Some id ->
               S id = channel_next w.

Record Inv (w : World) : Prop := {
  inv_timer : timer_ok w;
  inv_session : session_ok w;
  inv_proxy : proxy_ok w;
  inv_server : server_ok w
}.

(** ** Reading effect lists *)

Definition is_log (e : Effect) : bool :=
  match e with Log _ => true | _ => false end.

Definition is_state_set (s : State) (e : Effect) : bool :=
  match e with StateSet s' => State_eqb s s' | _ => false end.

Definition is_timer_start (e : Effect) : bool :=
  match e with TimerStart _ => true | _ => false end.

Definition is_session_new (e : Effect) : bool :=
  match e with SessionNew _ => true | _ => false end.

Definition is_server_start (e : Effect) : bool :=
  match e with ServerStart _ _ _ => true | _ => false end.

Definition is_delegate_call (e : Effect) : bool :=
  match e with DelegateSessionStarted => true | _ => false end.

(** The log lines written right before [onErrorOccurred] is called. *)
Definition is_error_report (e : Effect) : bool :=
  match e with
  | Log LogAttachTimeout | Log LogWaitTimeout
  | Log LogServerStartFailed | Log LogProcessCreateFailed => true
  | _ => false
  end.

Definition count (p : Effect -> bool) (t : list Effect) : nat :=
  length (filter p t).

(** The values assigned to [state_], in order. *)
Fixpoint state_writes (t : list Effect) : list State :=
  match t with
  | [] => []
  | StateSet s :: t' => s :: state_writes t'
  | _ :: t' => state_writes t'
  end.

(** The identifiers servers were started on, in order. *)
Fixpoint started_ids (t : list Effect) : list ChannelId :=
  match t with
  | [] => []
  | ServerStart _ id _ :: t' => id :: started_ids t'
  | _ :: t' => started_ids t'
  end.

(** One event starts at most one server, and then on the identifier drawn
    from the generator at that moment. *)
Definition draws (w : World) (r : World * list Effect) : Prop :=
  (started_ids (snd r) = [] /\ channel_next (fst r) = channel_next w) \/
  (started_ids (snd r) = [channel_next w] /\
   channel_next (fst r) = S (channel_next w)).

(** Everything but the log. *)
Definition unlogged (t : list Effect) : list Effect :=
  filter (fun e => negb (is_log e)) t.

(** An event that brings no valid connection: time passing, the task
    runner running, or a connection from some other executable. *)
Definition quiet (e : Event) : bool :=
  match e with
  | EvElapse _ | EvRunTasks => true
  | EvConnect _ peer => negb (String.eqb filePath peer)
  | _ => false
  end.

Fixpoint elapsed (es : list Event) : nat :=
  match es with
  | [] => 0
  | EvElapse dt :: es' => dt + elapsed es'
  | _ :: es' => elapsed es'
  end.

(** ** Objects and their lifetime *)

(** The objects the manager owns through [session_] and [server_]. *)
Definition owned (w : World) : list ObjId :=
  match session_ w with Some s => [session_obj s] | None => [] end ++
  match server_ w with Some v => [server_obj v] | None => [] end.

(** The objects that exist: owned, or handed to [deleteSoon] and waiting
    for the task runner. *)
Definition live (w : World) : list ObjId := owned w ++ task_runner_ w.

(** The objects whose destructor ran, in order. *)
Fixpoint destroyed_ids (t : list Effect) : list ObjId :=
  match t with
  | [] => []
  | Destroyed o :: t' => o :: destroyed_ids t'
  | _ :: t' => destroyed_ids t'
  end.

Definition is_destroyed (e : Effect) : bool :=
  match e with Destroyed _ => true | _ => false end.

(** 1 when object [o] was allocated while the heap counter went from [a]
    to [b], else 0. *)
Definition created_between (a b o : ObjId) : nat :=
  if (a <=? o) && (o <? b) then 1 else 0.

(** How often [o] occurs in a list of objects. *)
Definition occ (l : list ObjId) (o : ObjId) : nat := count_occ Nat.eq_dec l o.

(** One command accounts for every object: what existed before or was
    allocated by it either still exists or was destroyed by it, once. *)
Definition conserved (w : World) (r : World * list Effect) : Prop :=
  heap_next w <= heap_next (fst r) /\
  forall o, occ (destroyed_ids (snd r)) o + occ (live (fst r)) o =
            occ (live w) o + created_between (heap_next w) (heap_next (fst r)) o.

(** ** More ways to read a world *)

(** The manager waits for a connection: an attempt or a re-attach window
    is open. *)
Definition waiting (w : World) : bool :=
  match state_ w with STARTING | DETACHED => true | _ => false end.

(** The data members proper, without the environment. *)
Definition members (w : World)
    : State * option IpcServer * option DesktopSession * option Timer * option ObjId :=
  (state_ w, server_ w, session_ w, session_attach_timer_ w, session_proxy_ w).


(** The state changes one event can make, as the member functions allow
    them. *)
Definition allowed (a b : State) : bool :=
  match a, b with
  | STOPPED, (STOPPED | STARTING | ATTACHED) => true
  | STARTING, (STARTING | STOPPED | ATTACHED | DETACHED) => true
  | ATTACHED, (ATTACHED | DETACHED) => true
  | DETACHED, (DETACHED | STARTING | STOPPED | ATTACHED) => true
  | _, _ => false
  end.

(** Effects that belong to no transition: the log line of a rejected
    connection and the deferred destructions the task runner performs. *)
Definition is_noise (e : Effect) : bool :=
  match e with
  | Log LogUnknownApplication | Destroyed _ => true
  | _ => false
  end.

Definition is_process_create (e : Effect) : bool :=
  match e with ProcessCreate _ _ _ => true | _ => false end.

(** Every Channel-backed session the manager owns wraps a connection from
    the worker executable, made on an identifier the manager generated. *)
Definition peer_ok (w : World) : Prop :=
  forall s ch, session_ w = Some s -> session_kind s = DesktopSessionIpc ch ->
               peerFilePath ch = filePath /\ channel_name ch < channel_next w.

(** The time a quiet event takes. *)
Definition duration (e : Event) : nat :=
  match e with EvElapse dt => dt | _ => 0 end.

End Manager.

End Host.

(* ===================================================================== *)
Module Desktop.

(** ** Data *)

(** The [uiAction] codes passed to [SystemParametersInfoW]. *)
Inductive SpiAction : Type :=
| SPI_SETDESKWALLPAPER
| SPI_SETFONTSMOOTHING
| SPI_SETDRAGFULLWINDOWS
| SPI_SETANIMATION
| SPI_SETMENUANIMATION
| SPI_SETTOOLTIPANIMATION
| SPI_SETCOMBOBOXANIMATION
| SPI_SETSELECTIONFADE
| SPI_SETLISTBOXSMOOTHSCROLLING
| SPI_SETUIEFFECTS
| SPI_SETCLIENTAREAANIMATION
| SPI_SETGRADIENTCAPTIONS
| SPI_SETHOTTRACKING.

(** The [uiParam] and [pvParam] arguments as the file passes them. *)
Inductive UiParam : Type :=
| UiZero                      (* 0 and FALSE *)
| UiSizeofAnimationInfo.      (* sizeof(animation) *)

Inductive PvParam : Type :=
| PvNull                      (* 0 and FALSE *)
| PvEmptyString               (* L"" *)
| PvAnimationInfo (iMinAnimate : bool).

(** The calls into the system, in order; every [SystemParametersInfoW] is
    made with [SPIF_SENDCHANGE]. *)
Inductive SysCall : Type :=
| SystemParametersInfoW (uiAction : SpiAction) (uiParam : UiParam) (pvParam : PvParam)
| WTSQueryUserToken (ok : bool)
| LoggedOnUser (ok : bool)                      (* ScopedImpersonator::loggedOnUser *)
| GetModuleHandleW (ok : bool)                  (* L"user32.dll" *)
| GetProcAddress (ok : bool)                    (* "UpdatePerUserSystemParameters" *)
| UpdatePerUserSystemParameters (flags : nat).

(** The data members of [DesktopEnvironment]. *)
Record DesktopEnvironment : Type := {
  wallpaper_ : bool;
  font_smoothing_ : bool;
  effects_ : bool
}.

(** What the system answers during one [revertAll]. *)
Record System : Type := {
  user_token : bool;        (* WTSQueryUserToken succeeds *)
  impersonation : bool;     (* loggedOnUser succeeds *)
  user32 : bool;            (* GetModuleHandleW returns a module *)
  update_proc : bool        (* GetProcAddress finds the function *)
}.

(** ** The member functions *)

Definition disableWallpaper : list SysCall :=
  [SystemParametersInfoW SPI_SETDESKWALLPAPER UiZero PvEmptyString].

Definition disableFontSmoothing : list SysCall :=
  [SystemParametersInfoW SPI_SETFONTSMOOTHING UiZero PvNull].

Definition disableEffects : list SysCall :=
  [SystemParametersInfoW SPI_SETDRAGFULLWINDOWS UiZero PvNull;
   SystemParametersInfoW SPI_SETANIMATION UiSizeofAnimationInfo (PvAnimationInfo false);
   SystemParametersInfoW SPI_SETMENUANIMATION UiZero PvNull;
   SystemParametersInfoW SPI_SETTOOLTIPANIMATION UiZero PvNull;
   SystemParametersInfoW SPI_SETCOMBOBOXANIMATION UiZero PvNull;
   SystemParametersInfoW SPI_SETSELECTIONFADE UiZero PvNull;
   SystemParametersInfoW SPI_SETLISTBOXSMOOTHSCROLLING UiZero PvNull;
   SystemParametersInfoW SPI_SETUIEFFECTS UiZero PvNull;
   SystemParametersInfoW SPI_SETCLIENTAREAANIMATION UiZero PvNull;
   SystemParametersInfoW SPI_SETGRADIENTCAPTIONS UiZero PvNull;
   SystemParametersInfoW SPI_SETHOTTRACKING UiZero PvNull].

(** [void DesktopEnvironment::revertAll()] *)
Definition revertAll (sys : System) : list SysCall :=
  WTSQueryUserToken (user_token sys) ::
  if negb (user_token sys) then [] else
  LoggedOnUser (impersonation sys) ::
  if negb (impersonation sys) then [] else
  GetModuleHandleW (user32 sys) ::
  if user32 sys then
    GetProcAddress (update_proc sys) ::
    if update_proc sys then [UpdatePerUserSystemParameters 6] else []
  else [].

(** [void DesktopEnvironment::applyNewSettings()] *)
Definition applyNewSettings (d : DesktopEnvironment) : list SysCall :=
  (if negb (wallpaper_ d) then disableWallpaper else []) ++
  (if negb (font_smoothing_ d) then disableFontSmoothing else []) ++
  (if negb (effects_ d) then disableEffects else []).

(** [void DesktopEnvironment::setWallpaper(bool enable)] *)
Definition setWallpaper (sys : System) (enable : bool) (d : DesktopEnvironment)
    : DesktopEnvironment * list SysCall :=
  if Bool.eqb (wallpaper_ d) enable then (d, []) else
  let d' := {| wallpaper_ := enable;
               font_smoothing_ := font_smoothing_ d;
               effects_ := effects_ d |} in
  (d', revertAll sys ++ applyNewSettings d').

(** [void DesktopEnvironment::setFontSmoothing(bool enable)] *)
Definition setFontSmoothing (sys : System) (enable : bool) (d : DesktopEnvironment)
    : DesktopEnvironment * list SysCall :=
  if Bool.eqb (font_smoothing_ d) enable then (d, []) else
  let d' := {| wallpaper_ := wallpaper_ d;
               font_smoothing_ := enable;
               effects_ := effects_ d |} in
  (d', revertAll sys ++ applyNewSettings d').

(** [void DesktopEnvironment::setEffects(bool enable)] *)
Definition setEffects (sys : System) (enable : bool) (d : DesktopEnvironment)
    : DesktopEnvironment * list SysCall :=
  if Bool.eqb (effects_ d) enable then (d, []) else
  let d' := {| wallpaper_ := wallpaper_ d;
               font_smoothing_ := font_smoothing_ d;
               effects_ := enable |} in
  (d', revertAll sys ++ applyNewSettings d').

(** [DesktopEnvironment::DesktopEnvironment()]; the initial values of the
    three flags are set in the header and are taken as given. *)
Definition ctor (d : DesktopEnvironment) : DesktopEnvironment * list SysCall :=
  (d, applyNewSettings d).

(** [DesktopEnvironment::~DesktopEnvironment()] *)
Definition dtor (sys : System) (d : DesktopEnvironment)
    : DesktopEnvironment * list SysCall :=
  (d, revertAll sys).

(** The three setters under one name. *)
Inductive Setter : Type := Wallpaper | FontSmoothing | Effects.

Definition set (which : Setter) : System -> bool -> DesktopEnvironment ->
                                  DesktopEnvironment * list SysCall :=
  match which with
  | Wallpaper => setWallpaper
  | FontSmoothing => setFontSmoothing
  | Effects => setEffects
  end.

Definition flag (which : Setter) (d : DesktopEnvironment) : bool :=
  match which with
  | Wallpaper => wallpaper_ d
  | FontSmoothing => font_smoothing_ d
  | Effects => effects_ d
  end.

(** Two calls in a row: the worlds chained, the system calls appended. *)
Definition twice (which : Setter) (sys1 sys2 : System) (enable : bool)
    (d : DesktopEnvironment) : DesktopEnvironment * list SysCall :=
  let r1 := set which sys1 enable d in
  let r2 := set which sys2 enable (fst r1) in
  (fst r2, snd r1 ++ snd r2).

End Desktop.

(* ===================================================================== *)
(** * Properties of the desktop session manager *)

Import Host.

(** The worker executable used in the concrete runs below. *)
Definition worker : Path := "aspia_desktop_agent.exe"%string.

(** A peer that is not the worker. *)
Definition intruder : Path := "cmd.exe"%string.

Definition from_caller : Location := "ClientSession::start"%string.

(** Concrete worlds: a manager right after [attachSession(7)], after the
    worker has connected, after the attach timer has fired, and after the
    attached session has stopped. *)
Definition starting_world : World :=
  fst (run worker [EvAttachSession from_caller 7 true true] (ctor 0)).

Definition attached_world : World :=
  fst (run worker [EvAttachSession from_caller 7 true true; EvConnect 0 worker]
         (ctor 0)).

Definition timed_out_world : World :=
  fst (run worker [EvAttachSession from_caller 7 true true; EvElapse 60] (ctor 0)).

Definition detached_world : World :=
  fst (run worker [EvAttachSession from_caller 7 true true; EvConnect 0 worker;
                   EvSessionStopped] (ctor 0)).

(** A manager that was detached while waiting and is waiting again: the
    Fake session (object 1) is owned and bound in the proxy. *)
Definition reattaching_world : World :=
  fst (run worker [EvAttachSession from_caller 7 true true;
                   EvDettachSession from_caller;
                   EvAttachSession from_caller 7 true true] (ctor 0)).

Section HostFacts.

Variable filePath : Path.

(** ** The invariant is kept by every member function and event *)

Ltac open_world w Ht Hs Hp Hv :=
  destruct w as [st srv ses tm px q h c n];
  unfold timer_ok in Ht; unfold session_ok in Hs;
  unfold proxy_ok in Hp; unfold server_ok in Hv;
  simpl in Ht, Hs, Hp, Hv.

Ltac eval_goal := cbv -[Nat.add Nat.mul Nat.leb Nat.eqb String.eqb app].

Ltac finish :=
  eval_goal; intros;
  repeat match goal with
         | H : exists _, _ |- _ => destruct H
         | H : _ /\ _ |- _ => destruct H
         | H : Some _ = Some _ |- _ => inversion H; subst; clear H
         | H : Some _ = None |- _ => discriminate H
         | H : None = Some _ |- _ => discriminate H
         end;
  subst; cbv -[Nat.add Nat.mul Nat.leb Nat.eqb String.eqb app] in *;
  try solve [ reflexivity | assumption | discriminate | lia | congruence
            | eauto 6
            | repeat split; eauto; lia
            | eexists; repeat split; simpl; try reflexivity; try lia; eauto
            | do 2 eexists; repeat split; simpl; try reflexivity; eauto ].

Ltac split_inv := split; finish.

Lemma Inv_ctor clock : Inv (ctor clock).
Proof. split_inv. Qed.

Lemma Inv_dettachSession location w :
  Inv w -> Inv (fst (dettachSession location w)).
Proof.
  intros [Ht Hs Hp Hv]. open_world w Ht Hs Hp Hv.
  destruct st, ses as [s|]; try contradiction; split_inv.
Qed.

Lemma Inv_onErrorOccurred w : Inv w -> Inv (fst (onErrorOccurred w)).
Proof.
  intros [Ht Hs Hp Hv]. open_world w Ht Hs Hp Hv.
  destruct st, ses as [s|]; try contradiction; split_inv.
Qed.

Lemma Inv_attachSession location session_id start_ok create_ok w :
  Inv w -> Inv (fst (attachSession location session_id start_ok create_ok w)).
Proof.
  intros [Ht Hs Hp Hv]. open_world w Ht Hs Hp Hv.
  destruct st, start_ok, create_ok, ses as [s|], srv as [v|];
    try contradiction; split_inv.
Qed.

Lemma Inv_onNewConnection channel w :
  Inv w -> Inv (fst (onNewConnection filePath channel w)).
Proof.
  intros [Ht Hs Hp Hv]. unfold onNewConnection, ifc.
  destruct (negb (String.eqb filePath (peerFilePath channel))).
  - split; assumption.
  - open_world w Ht Hs Hp Hv.
    destruct st, srv as [v|], ses as [s|]; try contradiction; split_inv.
Qed.

Lemma Inv_deliver id peer w : Inv w -> Inv (fst (deliver filePath id peer w)).
Proof.
  intros H. unfold deliver.
  destruct (server_ w) as [s|]; [|exact H].
  destruct (server_endpoint s) as [id'|]; [|exact H].
  destruct (Nat.eqb id id'); [|exact H].
  apply Inv_onNewConnection, H.
Qed.

Lemma Inv_elapse dt w : Inv w -> Inv (fst (elapse dt w)).
Proof.
  intros [Ht Hs Hp Hv]. open_world w Ht Hs Hp Hv.
  unfold elapse; cbn [session_attach_timer_ set_now now].
  destruct tm as [[d cb]|]; cbn [deadline callback].
  - destruct (Nat.leb_spec d (n + dt)).
    + destruct st, cb, ses as [s|]; try contradiction; finish; split_inv.
    + destruct st; try contradiction; finish; split_inv.
  - destruct st; try contradiction; finish; split_inv.
Qed.

Lemma Inv_run_tasks w : Inv w -> Inv (fst (run_tasks w)).
Proof.
  intros [Ht Hs Hp Hv]. open_world w Ht Hs Hp Hv.
  destruct st; try contradiction; split_inv.
Qed.

Lemma Inv_step e w : Inv w -> Inv (fst (step filePath e w)).
Proof.
  intros H. destruct e; simpl.
  - apply Inv_attachSession, H.
  - apply Inv_dettachSession, H.
  - apply Inv_deliver, H.
  - apply Inv_elapse, H.
  - unfold ifc. destruct (is_some (session_ w)); exact H.
  - unfold ifc. destruct (is_some (session_ w)); [|exact H].
    apply Inv_dettachSession, H.
  - apply Inv_run_tasks, H.
Qed.

Lemma Inv_run es : forall w, Inv w -> Inv (fst (run filePath es w)).
Proof.
  induction es as [|e es IH]; intros w H; simpl; [exact H|].
  apply IH, Inv_step, H.
Qed.

Lemma reachable_Inv w : reachable filePath w -> Inv w.
Proof. intros (clock & es & ->). apply Inv_run, Inv_ctor. Qed.

(** ** C1: which session the proxy is bound to *)

(** C1, as amended.  Between two calls of a running manager the proxy is
    bound to exactly the session the manager owns, so never to two: that
    is one Channel-backed session in [ATTACHED], one Fake session in
    [DETACHED], no session in [STOPPED], and in [STARTING] either none
    (the attempt began in [STOPPED]) or the Fake session left from
    [DETACHED]. *)
Theorem C1_proxy_bound_to_owned_session (w : World) :
  reachable filePath w ->
  session_proxy_ w = option_map session_obj (session_ w) /\
  match state_ w with
  | ATTACHED => exists s ch, session_ w = Some s /\
                             session_kind s = DesktopSessionIpc ch
  | DETACHED => exists s, session_ w = Some s /\
                          session_kind s = DesktopSessionFake
  | STOPPED => session_ w = None
  | STARTING => forall s, session_ w = Some s ->
                          session_kind s = DesktopSessionFake
  | STOPPING => False
  end.
Proof.
  intros R. destruct (reachable_Inv w R) as [_ Hs Hp _].
  split; [exact Hp|].
  unfold session_ok in Hs. destruct (state_ w); try exact Hs.
  exact (proj1 Hs).
Qed.

(** ** C2: a connection from another executable *)

(** C2.  When the peer's executable path differs from the expected worker
    path, [onNewConnection] only writes the log line: no session is
    created or bound, and state, timer, server (indeed every member) are
    as before. *)
Theorem C2_unknown_peer_is_ignored (channel : IpcChannel) (w : World) :
  peerFilePath channel <> filePath ->
  onNewConnection filePath channel w = (w, [Log LogUnknownApplication]).
Proof.
  intros Hne. unfold onNewConnection, ifc.
  destruct (String.eqb_spec filePath (peerFilePath channel)) as [E|_].
  - symmetry in E. contradiction.
  - reflexivity.
Qed.

(** ** C3: channel identifiers and which connections are accepted *)

Lemma started_ids_app t1 t2 :
  started_ids (t1 ++ t2) = started_ids t1 ++ started_ids t2.
Proof.
  induction t1 as [|e t1 IH]; [reflexivity|].
  destruct e; simpl; rewrite IH; reflexivity.
Qed.

Lemma snd_run_cons e es w :
  snd (run filePath (e :: es) w) =
  snd (step filePath e w) ++ snd (run filePath es (fst (step filePath e w))).
Proof. reflexivity. Qed.

Ltac draws_none := left; split; reflexivity.

Lemma draws_dettachSession location w : draws w (dettachSession location w).
Proof.
  destruct w as [st srv ses tm px q h c n].
  destruct st, ses as [s|]; draws_none.
Qed.

Lemma draws_attachSession location session_id start_ok create_ok w :
  draws w (attachSession location session_id start_ok create_ok w).
Proof.
  destruct w as [st srv ses tm px q h c n].
  destruct st, start_ok, create_ok, ses as [s|], srv as [v|];
    first [ left; split; reflexivity | right; split; reflexivity ].
Qed.

Lemma draws_onNewConnection channel w :
  draws w (onNewConnection filePath channel w).
Proof.
  unfold onNewConnection, ifc.
  destruct (negb (String.eqb filePath (peerFilePath channel))).
  - draws_none.
  - destruct w as [st srv ses tm px q h c n].
    destruct srv as [v|], ses as [s|]; draws_none.
Qed.

Lemma draws_deliver id peer w : draws w (deliver filePath id peer w).
Proof.
  unfold deliver.
  destruct (server_ w) as [s|]; [|draws_none].
  destruct (server_endpoint s) as [id'|]; [|draws_none].
  destruct (Nat.eqb id id'); [|draws_none].
  apply draws_onNewConnection.
Qed.

Lemma draws_elapse dt w : draws w (elapse dt w).
Proof.
  destruct w as [st srv ses tm px q h c n].
  unfold elapse; cbn [session_attach_timer_ set_now now].
  destruct tm as [[d cb]|]; cbn [deadline callback]; [|draws_none].
  destruct (d <=? n + dt); [|draws_none].
  destruct st, cb, ses as [s|]; draws_none.
Qed.

Lemma draws_run_tasks w : draws w (run_tasks w).
Proof.
  left. split; [|reflexivity].
  unfold run_tasks; simpl. induction (task_runner_ w); simpl; auto.
Qed.

Lemma draws_step e w : draws w (step filePath e w).
Proof.
  destruct e; simpl.
  - apply draws_attachSession.
  - apply draws_dettachSession.
  - apply draws_deliver.
  - apply draws_elapse.
  - unfold ifc. destruct (is_some (session_ w)); draws_none.
  - unfold ifc. destruct (is_some (session_ w)); [|draws_none].
    apply draws_dettachSession.
  - apply draws_run_tasks.
Qed.

(** Over a whole run the identifiers servers are started on are the
    consecutive values of the generator. *)
Lemma started_ids_run es : forall w,
  exists k, started_ids (snd (run filePath es w)) = List.seq (channel_next w) k /\
            channel_next (fst (run filePath es w)) = channel_next w + k.
Proof.
  induction es as [|e es IH]; intros w.
  - exists 0. split; [reflexivity | simpl; lia].
  - destruct (IH (fst (step filePath e w))) as (k & Hids & Hnext).
    rewrite snd_run_cons, started_ids_app, Hids.
    change (fst (run filePath (e :: es) w))
      with (fst (run filePath es (fst (step filePath e w)))).
    rewrite Hnext.
    destruct (draws_step e w) as [[E1 E2]|[E1 E2]]; rewrite E1, E2.
    + exists k. split; [reflexivity | lia].
    + exists (S k). split; [reflexivity | lia].
Qed.

Lemma started_ids_NoDup es w : NoDup (started_ids (snd (run filePath es w))).
Proof.
  destruct (started_ids_run es w) as (k & -> & _). apply List.seq_NoDup.
Qed.

(** What an accepted connection looks like: the manager's server listens
    on the identifier the peer used, and the peer is the worker. *)
Lemma accepted_connection id peer w s :
  In (SessionNew s) (snd (step filePath (EvConnect id peer) w)) ->
  (exists v, server_ w = Some v /\ server_endpoint v = Some id) /\
  session_kind s =
    DesktopSessionIpc {| peerFilePath := filePath; channel_name := id |}.
Proof.
  simpl. unfold deliver.
  destruct (server_ w) as [v|] eqn:Ev; [|intros []].
  destruct (server_endpoint v) as [id'|] eqn:Eid; [|intros []].
  destruct (Nat.eqb_spec id id') as [->|_]; [|intros []].
  unfold onNewConnection, ifc; cbn [peerFilePath].
  destruct (String.eqb_spec filePath peer) as [<-|_].
  - destruct w as [st srv ses tm px q h c n]. simpl in Ev. subst srv.
    intros HIn. split; [exists v; auto|].
    destruct ses as [s0|];
      cbv -[Nat.add Nat.mul] in HIn;
      repeat (destruct HIn as [HIn|HIn]; try discriminate HIn; try contradiction);
      inversion HIn; reflexivity.
  - intros [H|[]]; discriminate H.
Qed.

(** A connection from the worker on the identifier the manager's server
    listens on is accepted, whatever state the manager is in. *)
Lemma listening_server_accepts w v id :
  server_ w = Some v -> server_endpoint v = Some id ->
  let w' := fst (step filePath (EvConnect id filePath) w) in
  state_ w' = ATTACHED /\
  session_ w' =
    Some {| session_obj := heap_next w;
            session_kind := DesktopSessionIpc
                              {| peerFilePath := filePath; channel_name := id |} |} /\
  session_proxy_ w' = Some (heap_next w).
Proof.
  intros Ev Eid. simpl. unfold deliver. rewrite Ev, Eid, Nat.eqb_refl.
  unfold onNewConnection, ifc; cbn [peerFilePath]. rewrite String.eqb_refl.
  destruct w as [st srv ses tm px q h c n]. simpl in Ev. subst srv.
  destruct ses as [s0|]; repeat split.
Qed.

(** Neither the error path, nor a detach, nor the passing of time touches
    the server the manager owns. *)
Lemma server_survives_failure w :
  server_ (fst (onErrorOccurred w)) = server_ w /\
  (forall location, server_ (fst (dettachSession location w)) = server_ w) /\
  (forall dt, server_ (fst (elapse dt w)) = server_ w).
Proof.
  destruct w as [st srv ses tm px q h c n]. split; [|split].
  - destruct st, ses as [s|]; reflexivity.
  - intros location. destruct st, ses as [s|]; reflexivity.
  - intros dt. unfold elapse; cbn [session_attach_timer_ set_now now].
    destruct tm as [[d cb]|]; cbn [deadline callback]; [|reflexivity].
    destruct (d <=? n + dt); [|reflexivity].
    destruct st, cb, ses as [s|]; reflexivity.
Qed.

(** C3, as amended.  Servers are never started twice on the same
    identifier, so two consecutive [attachSession] calls never use the
    same one; a connection is accepted only on the identifier generated
    last, that is, through the server of the most recent attempt and never
    through a superseded one; that server is left as it is by the error
    path, by [dettachSession] and by the passing of time; and as long as
    it listens, the worker connecting to it is accepted and bound,
    whatever state the manager is in. *)
Theorem C3_identifiers_and_acceptance (w : World) :
  reachable filePath w ->
  (forall es, NoDup (started_ids (snd (run filePath es w)))) /\
  (forall id peer s,
      In (SessionNew s) (snd (step filePath (EvConnect id peer) w)) ->
      S id = channel_next w /\
      session_kind s =
        DesktopSessionIpc {| peerFilePath := filePath; channel_name := id |}) /\
  (forall v id,
      server_ w = Some v -> server_endpoint v = Some id ->
      let w' := fst (step filePath (EvConnect id filePath) w) in
      state_ w' = ATTACHED /\
      session_ w' =
        Some {| session_obj := heap_next w;
                session_kind := DesktopSessionIpc
                                  {| peerFilePath := filePath; channel_name := id |} |} /\
      session_proxy_ w' = Some (heap_next w)) /\
  (server_ (fst (onErrorOccurred w)) = server_ w /\
   (forall location, server_ (fst (dettachSession location w)) = server_ w) /\
   (forall dt, server_ (fst (elapse dt w)) = server_ w)).
Proof.
  intros R. split; [|split; [|split]]; [| | |apply server_survives_failure].
  - intros es. apply started_ids_NoDup.
  - intros id peer s HIn.
    destruct (accepted_connection id peer w s HIn) as [(v & Ev & Eid) Hk].
    split; [|exact Hk].
    exact (inv_server w (reachable_Inv w R) v id Ev Eid).
  - intros v id Ev Eid. exact (listening_server_accepts w v id Ev Eid).
Qed.

(** ** C4: what becomes of the session owned before *)

(** C4, as amended.  An accepted [onNewConnection] performs exactly these
    steps: it cancels the timer, stops the server and hands it to
    [deleteSoon], builds the Channel-backed session and, by assigning it
    to [session_], destroys the session owned before right there, then
    sets [ATTACHED] and binds the new session in the proxy.  Only the
    server is queued for deferred deletion; the previous session is not. *)
Theorem C4_previous_session_destroyed_inline (channel : IpcChannel) (w : World) :
  peerFilePath channel = filePath ->
  let created := {| session_obj := heap_next w;
                    session_kind := DesktopSessionIpc channel |} in
  let r := onNewConnection filePath channel w in
  snd r =
    [Log LogProcessConnected; TimerStop] ++
    match server_ w with
    | Some v => [Log LogServerExists; ServerStop (server_obj v);
                 DeleteSoon (server_obj v)]
    | None => []
    end ++
    [SessionNew created] ++
    destroyed (option_map session_obj (session_ w)) ++
    [StateSet ATTACHED; ProxyAttachAndStart (heap_next w)] /\
  task_runner_ (fst r) =
    task_runner_ w ++
    match server_ w with Some v => [server_obj v] | None => [] end /\
  session_ (fst r) = Some created /\
  session_proxy_ (fst r) = Some (heap_next w).
Proof.
  intros E. unfold onNewConnection, ifc. rewrite E, String.eqb_refl.
  destruct w as [st srv ses tm px q h c n].
  destruct srv as [v|], ses as [s0|]; cbv -[Nat.add Nat.mul app];
    repeat split; rewrite ?app_nil_r; reflexivity.
Qed.

(** ** C5: the attach timeout *)

Lemma count_app p t1 t2 : count p (t1 ++ t2) = count p t1 + count p t2.
Proof. unfold count. rewrite filter_app, length_app. reflexivity. Qed.

Lemma count_Destroyed p q :
  (forall o, p (Destroyed o) = false) -> count p (map Destroyed q) = 0.
Proof.
  intros Hp. unfold count. induction q as [|o q IH]; [reflexivity|].
  simpl. rewrite Hp. exact IH.
Qed.

Lemma run_tasks_counts w :
  count (is_state_set STOPPED) (snd (run_tasks w)) = 0 /\
  count is_error_report (snd (run_tasks w)) = 0.
Proof. split; apply count_Destroyed; reflexivity. Qed.

(** A connection from another executable changes nothing and reports no
    error to the error path. *)
Lemma quiet_deliver id peer w :
  negb (String.eqb filePath peer) = true ->
  fst (deliver filePath id peer w) = w /\
  count (is_state_set STOPPED) (snd (deliver filePath id peer w)) = 0 /\
  count is_error_report (snd (deliver filePath id peer w)) = 0.
Proof.
  intros Hq. unfold deliver.
  destruct (server_ w) as [v|]; [|repeat split].
  destruct (server_endpoint v) as [id'|]; [|repeat split].
  destruct (Nat.eqb id id'); [|repeat split].
  unfold onNewConnection, ifc; cbn [peerFilePath]. rewrite Hq.
  repeat split.
Qed.

(** Once stopped with the timer idle, quiet events leave the manager
    stopped and the error path does not run again. *)
Lemma quiet_run_stopped es : forall w,
  forallb (quiet filePath) es = true ->
  state_ w = STOPPED -> session_attach_timer_ w = None ->
  state_ (fst (run filePath es w)) = STOPPED /\
  count (is_state_set STOPPED) (snd (run filePath es w)) = 0 /\
  count is_error_report (snd (run filePath es w)) = 0.
Proof.
  induction es as [|e es IH]; intros w Hq Hst Htm.
  - repeat split. exact Hst.
  - simpl in Hq. apply andb_true_iff in Hq. destruct Hq as [Hq Hqs].
    change (fst (run filePath (e :: es) w))
      with (fst (run filePath es (fst (step filePath e w)))).
    rewrite snd_run_cons, !count_app.
    assert (Hstep : state_ (fst (step filePath e w)) = STOPPED /\
                    session_attach_timer_ (fst (step filePath e w)) = None /\
                    count (is_state_set STOPPED) (snd (step filePath e w)) = 0 /\
                    count is_error_report (snd (step filePath e w)) = 0).
    { destruct e; try discriminate Hq; simpl in Hq; cbn [step].
      - destruct (quiet_deliver id peer w Hq) as (-> & -> & ->).
        repeat split; assumption.
      - destruct w as [st srv ses tm px q h c n]. simpl in Hst, Htm. subst.
        repeat split.
      - destruct (run_tasks_counts w) as (-> & ->).
        repeat split; assumption. }
    destruct Hstep as (S1 & S2 & -> & ->).
    destruct (IH _ Hqs S1 S2) as (R1 & -> & ->). auto.
Qed.

(** While the attempt waits, quiet events lasting up to the deadline end
    in [STOPPED] with the error path run exactly once. *)
Lemma quiet_run_starting es : forall w t,
  forallb (quiet filePath) es = true ->
  state_ w = STARTING -> session_attach_timer_ w = Some t ->
  now w < deadline t -> deadline t <= now w + elapsed es ->
  state_ (fst (run filePath es w)) = STOPPED /\
  count (is_state_set STOPPED) (snd (run filePath es w)) = 1 /\
  count is_error_report (snd (run filePath es w)) = 1.
Proof.
  induction es as [|e es IH]; intros w t Hq Hst Htm Hlt Hle.
  - simpl in Hle. lia.
  - simpl in Hq. apply andb_true_iff in Hq. destruct Hq as [Hq Hqs].
    change (fst (run filePath (e :: es) w))
      with (fst (run filePath es (fst (step filePath e w)))).
    rewrite snd_run_cons, !count_app.
    destruct e; try discriminate Hq; simpl in Hq, Hle; cbn [step].
    + destruct (quiet_deliver id peer w Hq) as (-> & -> & ->).
      apply (IH w t); assumption.
    + destruct w as [st srv ses tm px q h c n].
      simpl in Hst, Htm, Hlt, Hle. subst st tm. destruct t as [d cb].
      simpl in Hlt, Hle.
      unfold elapse; cbn [session_attach_timer_ set_now now deadline callback].
      destruct (Nat.leb_spec d (n + dt)) as [Hfire|Hwait].
      * match goal with
        | |- context [run filePath es (fst ?r)] =>
            assert (Hr : state_ (fst r) = STOPPED /\
                         session_attach_timer_ (fst r) = None /\
                         count (is_state_set STOPPED) (snd r) = 1 /\
                         count is_error_report (snd r) = 1)
              by (destruct cb, ses as [s|]; repeat split);
            destruct Hr as (R1 & R2 & -> & ->);
            destruct (quiet_run_stopped es (fst r) Hqs R1 R2) as (Q1 & -> & ->)
        end.
        auto.
      * match goal with
        | |- context [run filePath es (fst ?r)] =>
            destruct (IH (fst r) {| deadline := d; callback := cb |} Hqs
                        eq_refl eq_refl) as (Q1 & -> & ->)
        end; simpl; try lia. auto.
    + destruct (run_tasks_counts w) as (-> & ->).
      destruct (IH (fst (run_tasks w)) t Hqs Hst Htm Hlt Hle) as (Q1 & -> & ->).
      auto.
Qed.

(** What [attachSession] leaves behind when the manager is not attached:
    either a waiting attempt with a deadline at most a minute away, or,
    when the server or the worker process could not be started, a stopped
    manager whose error path has run once. *)
Lemma attachSession_outcome location session_id start_ok create_ok w :
  Inv w -> state_ w <> ATTACHED ->
  let r := attachSession location session_id start_ok create_ok w in
  (state_ (fst r) = STARTING /\
   (exists t, session_attach_timer_ (fst r) = Some t /\
              now (fst r) < deadline t /\
              deadline t <= now (fst r) + minutes 1) /\
   count (is_state_set STOPPED) (snd r) = 0 /\
   count is_error_report (snd r) = 0) \/
  (state_ (fst r) = STOPPED /\
   session_attach_timer_ (fst r) = None /\
   count (is_state_set STOPPED) (snd r) = 1 /\
   count is_error_report (snd r) = 1).
Proof.
  intros [Ht Hs Hp Hv] Hne. open_world w Ht Hs Hp Hv.
  destruct st; try contradiction; try (exfalso; apply Hne; reflexivity);
    destruct start_ok, create_ok, ses as [s|], srv as [v|];
    cbv -[Nat.add Nat.mul Nat.leb];
    first [ right; repeat split; reflexivity
          | left; repeat split;
            try reflexivity;
            finish ].
Qed.

(** C5.  [attachSession] is called on a manager that is not attached, and
    then for at least one minute nothing happens but time passing, the
    task runner running and connections from other executables.  Then
    the manager is in [STOPPED], and over the call and what followed the
    error path has completed exactly once and exactly one error was
    reported to it. *)
Theorem C5_attach_timeout_stops_once
    (w : World) (location : Location) (session_id : SessionId)
    (start_ok create_ok : bool) (es : list Event) :
  reachable filePath w ->
  state_ w <> ATTACHED ->
  forallb (quiet filePath) es = true ->
  minutes 1 <= elapsed es ->
  let r1 := attachSession location session_id start_ok create_ok w in
  let r2 := run filePath es (fst r1) in
  state_ (fst r2) = STOPPED /\
  count (is_state_set STOPPED) (snd r1 ++ snd r2) = 1 /\
  count is_error_report (snd r1 ++ snd r2) = 1.
Proof.
  intros R Hne Hq Hmin r1 r2. subst r1 r2.
  rewrite !count_app.
  destruct (attachSession_outcome location session_id start_ok create_ok w
              (reachable_Inv w R) Hne)
    as [(S1 & (t & T1 & T2 & T3) & -> & ->)|(S1 & T1 & -> & ->)].
  - destruct (quiet_run_starting es _ t Hq S1 T1 T2) as (Q1 & -> & ->);
      [lia | auto].
  - destruct (quiet_run_stopped es _ Hq S1 T1) as (Q1 & -> & ->). auto.
Qed.

(** ** C6: detaching or failing twice *)

(** C6.  In every world, and so in every reachable one, a second
    [dettachSession] right after the first leaves every member (state,
    timer, proxy, owned session and server) and the environment as the
    first call left them; the same holds for [onErrorOccurred]. *)
Theorem C6_dettach_and_error_idempotent (w : World) (l1 l2 : Location) :
  fst (dettachSession l2 (fst (dettachSession l1 w))) = fst (dettachSession l1 w) /\
  fst (onErrorOccurred (fst (onErrorOccurred w))) = fst (onErrorOccurred w).
Proof.
  destruct w as [st srv ses tm px q h c n].
  destruct st, ses as [s|]; split; cbv; reflexivity.
Qed.

(** ** C7: the destructor *)

(** C7, as amended.  The destructor assigns [state_] once, to [STOPPING],
    and the state stays [STOPPING]: it is never set to [STOPPED].  No
    session is created; the owned session is unbound from the proxy and
    handed to [deleteSoon], and the timer is cancelled.  This holds from
    [ATTACHED] as from every other state. *)
Theorem C7_destructor_stops_at_stopping (w : World) :
  let r := dtor w in
  state_writes (snd r) = [STOPPING] /\
  state_ (fst r) = STOPPING /\
  count is_session_new (snd r) = 0 /\
  session_ (fst r) = None /\
  session_proxy_ (fst r) = None /\
  session_attach_timer_ (fst r) = None /\
  task_runner_ (fst r) =
    task_runner_ w ++
    match session_ w with Some s => [session_obj s] | None => [] end.
Proof.
  destruct w as [st srv ses tm px q h c n].
  destruct st, ses as [s|]; cbv -[app]; rewrite ?app_nil_r; repeat split.
Qed.

(** ** C8: the session reports that it stopped *)

(** C8.  [onDesktopSessionStopped] leaves the same world as a direct
    [dettachSession] from any location, and performs the same effects;
    the two differ only in the location written to the log. *)
Theorem C8_session_stopped_is_dettach (w : World) (location : Location) :
  fst (onDesktopSessionStopped w) = fst (dettachSession location w) /\
  unlogged (snd (onDesktopSessionStopped w)) =
    unlogged (snd (dettachSession location w)) /\
  filter is_delegate_call (snd (onDesktopSessionStopped w)) =
    filter is_delegate_call (snd (dettachSession location w)).
Proof.
  destruct w as [st srv ses tm px q h c n].
  destruct st, ses as [s|]; repeat split.
Qed.

(** ** C9: [attachSession] while an attempt or a re-attach window is open *)

(** C9, as amended.  Called in [STARTING] or [DETACHED], [attachSession]
    never starts the timer.  When the server starts and the worker process
    is created, the armed deadline is left exactly as it was; when either
    fails, the error path cancels it and the manager ends in [STOPPED].
    The server of the previous attempt is destroyed by the assignment of
    the new server, after the new object is built and before it starts
    listening. *)
Theorem C9_attach_while_waiting
    (w : World) (location : Location) (session_id : SessionId)
    (start_ok create_ok : bool) :
  state_ w = STARTING \/ state_ w = DETACHED ->
  let r := attachSession location session_id start_ok create_ok w in
  count is_timer_start (snd r) = 0 /\
  (if start_ok && create_ok
   then session_attach_timer_ (fst r) = session_attach_timer_ w /\
        state_ (fst r) = STARTING
   else session_attach_timer_ (fst r) = None /\ state_ (fst r) = STOPPED) /\
  exists before after,
    snd r =
      before ++
      [ServerNew (heap_next w)] ++
      destroyed (option_map server_obj (server_ w)) ++
      [ServerStart (heap_next w) (channel_next w) start_ok] ++
      after /\
    count is_server_start before = 0.
Proof.
  intros Hst. destruct w as [st srv ses tm px q h c n]. simpl in Hst.
  destruct st; try (destruct Hst; discriminate);
    destruct start_ok, create_ok, ses as [s|], srv as [v|];
    (split; [reflexivity|]; split; [split; reflexivity|]);
    eexists [_; _; _], _; split; reflexivity.
Qed.

End HostFacts.

(** ** Concrete runs *)

Lemma reachable_run es clock : reachable worker (fst (run worker es (ctor clock))).
Proof. exists clock, es. reflexivity. Qed.

(** C1 as the specification states it fails: after [attachSession] from
    [STOPPED] the manager is in [STARTING], so it has left [STOPPED], and
    the proxy has no session bound. *)
Lemma C1_counterexample :
  starting_world = fst (attachSession from_caller 7 true true (ctor 0)) /\
  state_ starting_world = STARTING /\
  state_ starting_world <> STOPPED /\
  session_proxy_ starting_world = None.
Proof. repeat split. discriminate. Qed.

Lemma C1_witness :
  reachable worker attached_world /\
  session_proxy_ attached_world = option_map session_obj (session_ attached_world) /\
  exists s ch, session_ attached_world = Some s /\
               session_kind s = DesktopSessionIpc ch.
Proof.
  split; [apply reachable_run|].
  apply (C1_proxy_bound_to_owned_session worker attached_world).
  apply reachable_run.
Defined.

Lemma C2_witness :
  peerFilePath {| peerFilePath := intruder; channel_name := 0 |} <> worker /\
  onNewConnection worker {| peerFilePath := intruder; channel_name := 0 |}
    starting_world = (starting_world, [Log LogUnknownApplication]).
Proof.
  assert (H : peerFilePath {| peerFilePath := intruder; channel_name := 0 |}
              <> worker) by discriminate.
  split; [exact H|].
  apply (C2_unknown_peer_is_ignored worker _ starting_world H).
Defined.

(** C3 as the specification states it fails: the attempt on identifier 0
    has timed out and the manager is back in [STOPPED], yet its server
    still listens on 0, and the worker connecting there is accepted and
    bound. *)
Lemma C3_counterexample :
  state_ timed_out_world = STOPPED /\
  server_ timed_out_world =
    Some {| server_obj := 0; server_endpoint := Some 0 |} /\
  state_ (fst (step worker (EvConnect 0 worker) timed_out_world)) = ATTACHED /\
  session_ (fst (step worker (EvConnect 0 worker) timed_out_world)) =
    Some {| session_obj := 1;
            session_kind := DesktopSessionIpc
                              {| peerFilePath := worker; channel_name := 0 |} |} /\
  session_proxy_ (fst (step worker (EvConnect 0 worker) timed_out_world)) = Some 1.
Proof. repeat split. Qed.

Lemma C3_witness :
  reachable worker timed_out_world /\
  state_ (fst (step worker (EvConnect 0 worker) timed_out_world)) = ATTACHED.
Proof.
  split; [apply reachable_run|].
  apply (proj1 (proj2 (proj2 (C3_identifiers_and_acceptance worker
                                timed_out_world (reachable_run _ _))))
           {| server_obj := 0; server_endpoint := Some 0 |} 0);
    reflexivity.
Defined.

(** C4 as the specification states it fails: when the worker connects to
    a re-attaching manager, the Fake session bound in the proxy (object 1)
    is destroyed within [onNewConnection] itself, and it is not among the
    objects queued for deferred deletion. *)
Lemma C4_counterexample :
  session_proxy_ reattaching_world = Some 1 /\
  In (Destroyed 1)
     (snd (onNewConnection worker {| peerFilePath := worker; channel_name := 1 |}
             reattaching_world)) /\
  task_runner_
    (fst (onNewConnection worker {| peerFilePath := worker; channel_name := 1 |}
            reattaching_world)) = [2].
Proof.
  split; [reflexivity|]. split; [|reflexivity].
  cbv. do 6 right. left. reflexivity.
Qed.

Lemma C4_witness :
  peerFilePath {| peerFilePath := worker; channel_name := 1 |} = worker /\
  task_runner_
    (fst (onNewConnection worker {| peerFilePath := worker; channel_name := 1 |}
            reattaching_world)) = [] ++ [2].
Proof.
  split; [reflexivity|].
  apply (C4_previous_session_destroyed_inline worker
           {| peerFilePath := worker; channel_name := 1 |} reattaching_world
           eq_refl).
Defined.

Lemma C5_witness :
  reachable worker (ctor 0) /\
  state_ (ctor 0) <> ATTACHED /\
  forallb (quiet worker) [EvConnect 0 intruder; EvElapse 60] = true /\
  minutes 1 <= elapsed [EvConnect 0 intruder; EvElapse 60] /\
  state_ (fst (run worker [EvConnect 0 intruder; EvElapse 60]
                 (fst (attachSession from_caller 7 true true (ctor 0))))) = STOPPED.
Proof.
  assert (H1 : reachable worker (ctor 0)) by (exists 0, []; reflexivity).
  assert (H2 : state_ (ctor 0) <> ATTACHED) by discriminate.
  assert (H3 : forallb (quiet worker) [EvConnect 0 intruder; EvElapse 60] = true)
    by reflexivity.
  assert (H4 : minutes 1 <= elapsed [EvConnect 0 intruder; EvElapse 60])
    by (apply Nat.leb_le; reflexivity).
  repeat (split; [assumption|]).
  apply (C5_attach_timeout_stops_once worker (ctor 0) from_caller 7 true true
           [EvConnect 0 intruder; EvElapse 60] H1 H2 H3 H4).
Defined.

(** C7 as the specification states it fails: the destructor of an
    attached manager writes [STOPPING] and nothing else to [state_]. *)
Lemma C7_counterexample :
  state_ attached_world = ATTACHED /\
  state_writes (snd (dtor attached_world)) = [STOPPING] /\
  ~ In STOPPED (state_writes (snd (dtor attached_world))) /\
  state_ (fst (dtor attached_world)) <> STOPPED.
Proof.
  repeat split.
  - intros [H|[]]. discriminate H.
  - discriminate.
Qed.

(** C9 as the specification states it fails: an attempt is open with the
    deadline at 60; a second [attachSession] whose server cannot start
    runs the error path, and the deadline is gone. *)
Lemma C9_counterexample :
  state_ starting_world = STARTING /\
  session_attach_timer_ starting_world =
    Some {| deadline := 60; callback := AttachTimeout |} /\
  session_attach_timer_
    (fst (attachSession from_caller 7 false true starting_world)) = None.
Proof. repeat split. Qed.

Lemma C9_witness :
  (state_ starting_world = STARTING \/ state_ starting_world = DETACHED) /\
  session_attach_timer_
    (fst (attachSession from_caller 7 true true starting_world)) =
  session_attach_timer_ starting_world.
Proof.
  assert (H : state_ starting_world = STARTING \/ state_ starting_world = DETACHED)
    by (left; reflexivity).
  split; [exact H|].
  apply (C9_attach_while_waiting starting_world from_caller 7 true true H).
Defined.

(* ===================================================================== *)
(** * Properties of the desktop environment *)

(** C10.  Each of [setWallpaper], [setFontSmoothing] and [setEffects],
    called with the value its flag already has, returns at once: the
    object is unchanged and no system call is made (no revert, no
    re-apply).  So two calls in a row with the same argument leave the
    same object and make the same system calls as one. *)
Theorem C10_setter_with_stored_value_does_nothing
    (which : Desktop.Setter) (sys sys1 sys2 : Desktop.System)
    (enable : bool) (d : Desktop.DesktopEnvironment) :
  Desktop.set which sys (Desktop.flag which d) d = (d, []) /\
  Desktop.twice which sys1 sys2 enable d = Desktop.set which sys1 enable d.
Proof.
  destruct d as [wp fs ef].
  split.
  - destruct which; simpl;
      unfold Desktop.setWallpaper, Desktop.setFontSmoothing, Desktop.setEffects;
      simpl; rewrite Bool.eqb_reflx; reflexivity.
  - destruct which, enable, wp, fs, ef;
      unfold Desktop.twice, Desktop.set, Desktop.setWallpaper,
        Desktop.setFontSmoothing, Desktop.setEffects;
      cbn [Bool.eqb Desktop.wallpaper_ Desktop.font_smoothing_ Desktop.effects_
           fst snd];
      rewrite ?app_nil_r; reflexivity.
Qed.

(* ===================================================================== *)
(** * The scenarios of the specification, run *)

(** [attachSession(7)] while [STOPPED], the process is spawned, another
    executable connects and is rejected, one minute passes: the manager
    is [STOPPED] and the delegate was never told that a session started. *)
Example scenario_rejected_then_timeout :
  let r := run worker [EvAttachSession from_caller 7 true true;
                       EvConnect 0 intruder; EvElapse 60] (ctor 0) in
  state_ (fst r) = STOPPED /\
  session_proxy_ (fst r) = None /\
  count is_delegate_call (snd r) = 0.
Proof. repeat split. Qed.

(** [attachSession(7)], the worker connects within ten seconds: the
    manager is [ATTACHED], the proxy is bound to a Channel-backed session,
    and the session's start notification reaches the delegate. *)
Example scenario_worker_connects :
  let r := run worker [EvAttachSession from_caller 7 true true; EvElapse 10;
                       EvConnect 0 worker; EvSessionStarted] (ctor 0) in
  state_ (fst r) = ATTACHED /\
  session_ (fst r) =
    Some {| session_obj := 1;
            session_kind := DesktopSessionIpc
                              {| peerFilePath := worker; channel_name := 0 |} |} /\
  session_proxy_ (fst r) = Some 1 /\
  session_attach_timer_ (fst r) = None /\
  count is_delegate_call (snd r) = 1.
Proof. repeat split. Qed.

(** While [ATTACHED] the session stops: the manager is [DETACHED], a Fake
    session is bound at once, the old session waits in the task runner,
    and a new one-minute deadline is armed. *)
Example scenario_session_lost :
  state_ detached_world = DETACHED /\
  session_ detached_world =
    Some {| session_obj := 2; session_kind := DesktopSessionFake |} /\
  session_proxy_ detached_world = Some 2 /\
  task_runner_ detached_world = [0; 1] /\
  session_attach_timer_ detached_world =
    Some {| deadline := 60; callback := ReattachTimeout |}.
Proof. repeat split. Qed.

(** The desktop environment: switching the wallpaper off reverts the user
    settings and re-applies what is disabled; asking again does nothing. *)
Example scenario_wallpaper_off :
  let sys := {| Desktop.user_token := true; Desktop.impersonation := true;
                Desktop.user32 := true; Desktop.update_proc := true |} in
  let d := {| Desktop.wallpaper_ := true; Desktop.font_smoothing_ := true;
              Desktop.effects_ := true |} in
  snd (Desktop.setWallpaper sys false d) =
    [Desktop.WTSQueryUserToken true; Desktop.LoggedOnUser true;
     Desktop.GetModuleHandleW true; Desktop.GetProcAddress true;
     Desktop.UpdatePerUserSystemParameters 6;
     Desktop.SystemParametersInfoW Desktop.SPI_SETDESKWALLPAPER
       Desktop.UiZero Desktop.PvEmptyString] /\
  snd (Desktop.setWallpaper sys false (fst (Desktop.setWallpaper sys false d))) = [].
Proof. split; reflexivity. Qed.

(* ===================================================================== *)
(** * Further properties of the desktop session manager *)

Section HostLifetime.

Variable filePath : Path.

(** ** Every object is destroyed exactly once or still exists *)

Lemma destroyed_ids_app t1 t2 :
  destroyed_ids (t1 ++ t2) = destroyed_ids t1 ++ destroyed_ids t2.
Proof.
  induction t1 as [|e t1 IH]; [reflexivity|].
  destruct e; simpl; rewrite IH; reflexivity.
Qed.

Lemma destroyed_ids_map q : destroyed_ids (map Destroyed q) = q.
Proof. induction q as [|o q IH]; simpl; [|rewrite IH]; reflexivity. Qed.

Lemma occ_app l1 l2 o : occ (l1 ++ l2) o = occ l1 o + occ l2 o.
Proof. apply count_occ_app. Qed.

Lemma created_between_refl a o : created_between a a o = 0.
Proof.
  unfold created_between.
  destruct (Nat.leb_spec a o), (Nat.ltb_spec o a); simpl; try reflexivity; lia.
Qed.

Lemma created_between_trans a b c o :
  a <= b -> b <= c ->
  created_between a b o + created_between b c o = created_between a c o.
Proof.
  intros Hab Hbc. unfold created_between.
  destruct (Nat.leb_spec a o), (Nat.ltb_spec o b), (Nat.leb_spec b o),
    (Nat.ltb_spec o c); simpl; lia.
Qed.

Ltac occ_arith :=
  unfold occ, created_between;
  repeat first
    [ rewrite count_occ_app
    | progress cbn [count_occ]
    | match goal with
      | |- context [Nat.eq_dec ?a ?b] => destruct (Nat.eq_dec a b)
      end ];
  repeat match goal with
         | |- context [?a <=? ?b] => destruct (Nat.leb_spec a b)
         | |- context [?a <? ?b] => destruct (Nat.ltb_spec a b)
         end;
  cbn [andb]; lia.

Ltac conserve :=
  split;
  [ cbv -[Nat.le]; lia
  | intros o;
    cbv -[occ count_occ created_between destroyed_ids Nat.eq_dec app
          Nat.leb Nat.ltb Nat.add];
    cbn [app destroyed_ids];
    occ_arith ].

Lemma conserved_skip w : conserved w (w, []).
Proof.
  split; [simpl; lia|]. intros o. simpl. rewrite created_between_refl.
  unfold occ. simpl. lia.
Qed.

Lemma conserved_skip_log l w : conserved w (log l w).
Proof.
  split; [simpl; lia|]. intros o. simpl. rewrite created_between_refl.
  unfold occ. simpl. lia.
Qed.

Lemma conserved_skip_delegate w : conserved w (onDesktopSessionStarted w).
Proof.
  split; [simpl; lia|]. intros o. simpl. rewrite created_between_refl.
  unfold occ. simpl. lia.
Qed.

Lemma conserved_dettachSession location w :
  conserved w (dettachSession location w).
Proof.
  destruct w as [st srv ses tm px q h c n].
  destruct st, ses as [[so sk]|], srv as [[vo ve]|]; conserve.
Qed.


Lemma conserved_onErrorOccurred w : conserved w (onErrorOccurred w).
Proof.
  destruct w as [st srv ses tm px q h c n].
  destruct st, ses as [[so sk]|], srv as [[vo ve]|]; conserve.
Qed.

Lemma conserved_attachSession location session_id start_ok create_ok w :
  conserved w (attachSession location session_id start_ok create_ok w).
Proof.
  destruct w as [st srv ses tm px q h c n].
  destruct st, start_ok, create_ok, ses as [[so sk]|], srv as [[vo ve]|];
    conserve.
Qed.

Lemma conserved_onNewConnection channel w :
  conserved w (onNewConnection filePath channel w).
Proof.
  unfold onNewConnection, ifc.
  destruct (negb (String.eqb filePath (peerFilePath channel))).
  - apply conserved_skip_log.
  - destruct w as [st srv ses tm px q h c n].
    destruct ses as [[so sk]|], srv as [[vo ve]|]; conserve.
Qed.

Lemma conserved_deliver id peer w : conserved w (deliver filePath id peer w).
Proof.
  unfold deliver.
  destruct (server_ w) as [s|]; [|apply conserved_skip].
  destruct (server_endpoint s) as [id'|]; [|apply conserved_skip].
  destruct (Nat.eqb id id'); [|apply conserved_skip].
  apply conserved_onNewConnection.
Qed.

Lemma conserved_elapse dt w : conserved w (elapse dt w).
Proof.
  destruct w as [st srv ses tm px q h c n].
  unfold elapse; cbn [session_attach_timer_ set_now now].
  destruct tm as [[d cb]|]; cbn [deadline callback].
  - destruct (d <=? n + dt).
    + destruct st, cb, ses as [[so sk]|], srv as [[vo ve]|]; conserve.
    + destruct ses as [[so sk]|], srv as [[vo ve]|]; conserve.
  - destruct ses as [[so sk]|], srv as [[vo ve]|]; conserve.
Qed.

Lemma conserved_run_tasks w : conserved w (run_tasks w).
Proof.
  destruct w as [st srv ses tm px q h c n].
  split; [simpl; lia|]. intros o.
  unfold run_tasks. cbn [fst snd]. rewrite destroyed_ids_map.
  cbn [heap_next set_tasks]. rewrite created_between_refl.
  unfold live, owned. cbn [session_ server_ task_runner_ set_tasks].
  rewrite !occ_app. change (occ [] o) with 0. lia.
Qed.

Lemma conserved_step e w : conserved w (step filePath e w).
Proof.
  destruct e; simpl.
  - apply conserved_attachSession.
  - apply conserved_dettachSession.
  - apply conserved_deliver.
  - apply conserved_elapse.
  - unfold ifc. destruct (is_some (session_ w)).
    + apply (conserved_skip_delegate w).
    + apply conserved_skip.
  - unfold ifc. destruct (is_some (session_ w)); [|apply conserved_skip].
    apply conserved_dettachSession.
  - apply conserved_run_tasks.
Qed.

Lemma conserved_run es : forall w, conserved w (run filePath es w).
Proof.
  induction es as [|e es IH]; intros w; [apply conserved_skip|].
  destruct (conserved_step e w) as [H1 E1].
  destruct (IH (fst (step filePath e w))) as [H2 E2].
  unfold conserved.
  change (fst (run filePath (e :: es) w))
    with (fst (run filePath es (fst (step filePath e w)))).
  split; [lia|]. intros o.
  rewrite snd_run_cons, destroyed_ids_app, occ_app.
  rewrite <- (created_between_trans _ _ _ o H1 H2).
  specialize (E1 o). specialize (E2 o). lia.
Qed.

Lemma occ_le_1_NoDup l : (forall o, occ l o <= 1) -> NoDup l.
Proof. intros H. apply (NoDup_count_occ Nat.eq_dec). exact H. Qed.

Lemma occ_pos_In l o : In o l <-> 0 < occ l o.
Proof. unfold occ. rewrite (count_occ_In Nat.eq_dec). lia. Qed.


(** X1.  Over any run of a manager from its construction, every object
    ever allocated (session or server) is accounted for exactly once: it
    is either still alive (owned by the manager or waiting in the task
    runner) or its destructor has run once.  So no object is destroyed
    twice, none is destroyed while owned or queued, none is queued twice,
    and none is lost. *)
Theorem X1_objects_destroyed_exactly_once (clock : nat) (es : list Event) :
  let r := run filePath es (ctor clock) in
  NoDup (destroyed_ids (snd r) ++ live (fst r)) /\
  forall o, o < heap_next (fst r) <->
            In o (destroyed_ids (snd r) ++ live (fst r)).
Proof.
  intros r. destruct (conserved_run es (ctor clock)) as [_ E]. fold r in E.
  assert (Hocc : forall o, occ (destroyed_ids (snd r) ++ live (fst r)) o =
                           created_between 0 (heap_next (fst r)) o).
  { intros o. rewrite occ_app, (E o). reflexivity. }
  split.
  - apply occ_le_1_NoDup. intros o. rewrite Hocc. unfold created_between.
    destruct (_ && _); lia.
  - intros o. rewrite occ_pos_In, Hocc. unfold created_between.
    destruct (Nat.ltb_spec o (heap_next (fst r))); simpl; lia.
Qed.

End HostLifetime.

Section HostBehaviour.

Variable filePath : Path.

Ltac evaluate := cbv -[Nat.add Nat.mul Nat.leb Nat.eqb String.eqb app].

(** ** The timer and the state *)

(** X2.  Between two calls the timer is armed exactly when the manager
    waits (state [STARTING] or [DETACHED]); an armed deadline lies in the
    future and at most one minute away; and the manager is never left in
    [STOPPING]. *)
Theorem X2_timer_armed_iff_waiting (w : World) :
  reachable filePath w ->
  is_some (session_attach_timer_ w) = waiting w /\
  state_ w <> STOPPING /\
  forall t, session_attach_timer_ w = Some t ->
            now w < deadline t /\ deadline t <= now w + minutes 1.
Proof.
  intros R. destruct (reachable_Inv filePath w R) as [Ht Hs _ _].
  unfold timer_ok in Ht. unfold session_ok in Hs. unfold waiting.
  destruct (state_ w); try contradiction.
  - rewrite Ht. split; [reflexivity|]. split; [discriminate|].
    intros t E. discriminate E.
  - destruct Ht as (t0 & E0 & H1 & H2). rewrite E0.
    split; [reflexivity|]. split; [discriminate|].
    intros t E. inversion E; subst. split; assumption.
  - rewrite Ht. split; [reflexivity|]. split; [discriminate|].
    intros t E. discriminate E.
  - destruct Ht as (t0 & E0 & H1 & H2). rewrite E0.
    split; [reflexivity|]. split; [discriminate|].
    intros t E. inversion E; subst. split; assumption.
Qed.

(** X3.  While the manager is [ATTACHED], a further [attachSession] does
    nothing at all, no connection can reach it (the server is gone), and
    the passing of time only moves the clock: no timeout can end an
    attached session. *)
Theorem X3_attached_is_stable (w : World) :
  reachable filePath w -> state_ w = ATTACHED ->
  (forall location session_id start_ok create_ok,
      attachSession location session_id start_ok create_ok w = (w, [])) /\
  (forall id peer, deliver filePath id peer w = (w, [])) /\
  (forall dt, elapse dt w = (set_now (now w + dt) w, [])).
Proof.
  intros R Hst. destruct (reachable_Inv filePath w R) as [Ht Hs _ _].
  unfold timer_ok in Ht. unfold session_ok in Hs. rewrite Hst in Ht, Hs.
  destruct Hs as [_ Hsrv].
  destruct w as [st srv ses tm px q h c n]. simpl in Hst, Ht, Hsrv. subst.
  repeat split.
Qed.

Lemma state_changes_allowed (w : World) (e : Event) :
  reachable filePath w ->
  allowed (state_ w) (state_ (fst (step filePath e w))) = true.
Proof.
  intros R. destruct (reachable_Inv filePath w R) as [Ht Hs _ _].
  unfold timer_ok in Ht. unfold session_ok in Hs.
  destruct w as [st srv ses tm px q h c n]. simpl in Ht, Hs.
  destruct e as [l sid a b|l|id peer|dt| | |]; cbn [step].
  - destruct st, a, b, ses as [s|], srv as [v|]; try contradiction; reflexivity.
  - destruct st, ses as [s|]; try contradiction; reflexivity.
  - unfold deliver; cbn [server_].
    destruct srv as [[vo [id'|]]|]; cbn [server_endpoint];
      try (destruct st; try contradiction; reflexivity).
    destruct (Nat.eqb id id'); [|destruct st; try contradiction; reflexivity].
    unfold onNewConnection, ifc; cbn [peerFilePath].
    destruct (negb (String.eqb filePath peer));
      destruct st, ses as [s|]; try contradiction; reflexivity.
  - unfold elapse; cbn [session_attach_timer_ set_now now].
    destruct tm as [[d cb]|]; cbn [deadline callback].
    + destruct (d <=? n + dt);
        destruct st, cb, ses as [s|]; try contradiction; try discriminate Ht;
        reflexivity.
    + destruct st; try contradiction; reflexivity.
  - unfold ifc. destruct (is_some _); destruct st; try contradiction; reflexivity.
  - unfold ifc; cbn [session_].
    destruct st, ses as [s|]; try contradiction; reflexivity.
  - destruct st; try contradiction; reflexivity.
Qed.


(** Every edge of [allowed] is taken by some event in some reachable
    world. *)
Lemma allowed_changes_occur (a b : State) :
  allowed a b = true ->
  exists es e,
    state_ (fst (run filePath es (ctor 0))) = a /\
    state_ (fst (step filePath e (fst (run filePath es (ctor 0))))) = b.
Proof.
  pose (at1 := EvAttachSession "f"%string 7 true true).
  pose (conn := EvConnect 0 filePath).
  pose (det := EvDettachSession "f"%string).
  destruct a, b; try discriminate; intros _.
  - exists [], EvRunTasks. split; reflexivity.
  - exists [], at1. split; reflexivity.
  - exists [at1; EvElapse 60], conn.
    split; [reflexivity|]. evaluate. rewrite String.eqb_refl. reflexivity.
  - exists [at1], (EvElapse 60). split; reflexivity.
  - exists [at1], EvRunTasks. split; reflexivity.
  - exists [at1], conn.
    split; [reflexivity|]. evaluate. rewrite String.eqb_refl. reflexivity.
  - exists [at1], det. split; reflexivity.
  - exists [at1; conn], EvRunTasks.
    split; evaluate; rewrite String.eqb_refl; reflexivity.
  - exists [at1; conn], det.
    split; evaluate; rewrite String.eqb_refl; reflexivity.
  - exists [at1; det], (EvElapse 60). split; reflexivity.
  - exists [at1; det], at1. split; reflexivity.
  - exists [at1; det], conn.
    split; [reflexivity|]. evaluate. rewrite String.eqb_refl. reflexivity.
  - exists [at1; det], EvRunTasks. split; reflexivity.
Qed.

(** X4.  One event changes the state exactly along the edges of
    [allowed]: from [ATTACHED] only to [DETACHED]; never from [STOPPED]
    to [DETACHED]; never into [STOPPING]; and every other change among
    [STOPPED], [STARTING], [ATTACHED] and [DETACHED] does occur in some
    run, among them [STOPPED] to [ATTACHED] directly. *)
Theorem X4_state_changes (a b : State) :
  allowed a b = true <->
  exists es e,
    state_ (fst (run filePath es (ctor 0))) = a /\
    state_ (fst (step filePath e (fst (run filePath es (ctor 0))))) = b.
Proof.
  split; [apply allowed_changes_occur|].
  intros (es & e & <- & <-). apply state_changes_allowed.
  exists 0, es. reflexivity.
Qed.

End HostBehaviour.

Section HostCalls.

Variable filePath : Path.

Ltac evaluate := cbv -[Nat.add Nat.mul Nat.leb Nat.eqb String.eqb app].


(** ** The delegate *)



(** ** Attaching *)


(** X7.  When [attachSession] fails, because the server does not start or
    the worker process is not created, the manager ends in [STOPPED] with
    no session, the proxy unbound and the timer idle, and no Fake session
    is created.  The worker is only spawned when the server has started.
    The new server object stays owned: not listening when it failed to
    start, still listening on the new identifier when only the spawn
    failed. *)
Theorem X7_attach_failure_stops
    (w : World) (location : Location) (session_id : SessionId)
    (start_ok create_ok : bool) :
  state_ w <> ATTACHED ->
  start_ok && create_ok = false ->
  let r := attachSession location session_id start_ok create_ok w in
  members (fst r) =
    (STOPPED,
     Some {| server_obj := heap_next w;
             server_endpoint := if start_ok then Some (channel_next w) else None |},
     None, None, None) /\
  count is_process_create (snd r) = (if start_ok then 1 else 0) /\
  count is_session_new (snd r) = 0 /\
  count is_delegate_call (snd r) = 0.
Proof.
  intros Hne Hfail. destruct w as [st srv ses tm px q h c n]. simpl in Hne.
  destruct st; try (exfalso; apply Hne; reflexivity);
    destruct start_ok, create_ok; try discriminate Hfail;
    destruct ses as [s|], srv as [v|]; repeat split.
Qed.


End HostCalls.

Section HostWindows.

Variable filePath : Path.

Ltac evaluate := cbv -[Nat.add Nat.mul Nat.leb Nat.eqb String.eqb app].

(** ** The re-attach window *)

Lemma state_writes_app t1 t2 :
  state_writes (t1 ++ t2) = state_writes t1 ++ state_writes t2.
Proof.
  induction t1 as [|e t1 IH]; [reflexivity|].
  destruct e; simpl; rewrite IH; reflexivity.
Qed.

Lemma noise_is_no_transition t :
  forallb is_noise t = true ->
  state_writes t = [] /\ count is_session_new t = 0 /\
  count is_error_report t = 0.
Proof.
  induction t as [|e t IH]; [repeat split|].
  cbn [forallb]. intros H. apply andb_true_iff in H. destruct H as [He Ht].
  destruct (IH Ht) as (I1 & I2 & I3). unfold count in *.
  destruct e as [l| | | | | | | | | | | | | |]; try discriminate He;
    [destruct l; try discriminate He|]; simpl; auto.
Qed.

Lemma noise_Destroyed q : forallb is_noise (map Destroyed q) = true.
Proof. induction q as [|o q IH]; [reflexivity|exact IH]. Qed.

(** A quiet event that does not reach the deadline leaves every member as
    it is. *)
Lemma quiet_step_idle e w :
  quiet filePath e = true ->
  (forall t, session_attach_timer_ w = Some t ->
             now w + duration e < deadline t) ->
  members (fst (step filePath e w)) = members w /\
  now (fst (step filePath e w)) = now w + duration e /\
  forallb is_noise (snd (step filePath e w)) = true.
Proof.
  intros Hq Hd.
  destruct e as [l sid a b|l|id peer|dt| | |]; try discriminate Hq;
    cbn [step duration] in *.
  - simpl in Hq. unfold deliver.
    destruct (server_ w) as [v|]; [|repeat split; simpl; lia].
    destruct (server_endpoint v) as [id'|]; [|repeat split; simpl; lia].
    destruct (Nat.eqb id id'); [|repeat split; simpl; lia].
    unfold onNewConnection, ifc; cbn [peerFilePath]. rewrite Hq.
    repeat split; simpl; lia.
  - destruct w as [st srv ses tm px q h c n].
    unfold elapse; cbn [session_attach_timer_ set_now now] in *.
    destruct tm as [[d cb]|]; [|repeat split].
    specialize (Hd _ eq_refl). cbn [deadline callback] in *.
    destruct (Nat.leb_spec d (n + dt)); [lia|]. repeat split.
  - destruct w as [st srv ses tm px q h c n].
    split; [reflexivity|]. split; [simpl; lia|].
    apply noise_Destroyed.
Qed.

Lemma quiet_run_idle es : forall w,
  forallb (quiet filePath) es = true ->
  session_attach_timer_ w = None ->
  members (fst (run filePath es w)) = members w /\
  forallb is_noise (snd (run filePath es w)) = true.
Proof.
  induction es as [|e es IH]; intros w Hq Htm; [split; reflexivity|].
  cbn [forallb] in Hq. apply andb_true_iff in Hq. destruct Hq as [Hq Hqs].
  destruct (quiet_step_idle e w Hq) as (M & _ & N).
  { intros t E. rewrite Htm in E. discriminate E. }
  change (fst (run filePath (e :: es) w))
    with (fst (run filePath es (fst (step filePath e w)))).
  rewrite snd_run_cons, forallb_app, N.
  assert (Htm' : session_attach_timer_ (fst (step filePath e w)) = None).
  { unfold members in M. inversion M. congruence. }
  destruct (IH _ Hqs Htm') as (M' & N'). rewrite M', N'. split; [exact M|reflexivity].
Qed.

(** The timer firing on a waiting manager runs the error path through. *)
Lemma timer_fires w t dt :
  waiting w = true -> session_attach_timer_ w = Some t ->
  deadline t <= now w + dt ->
  members (fst (elapse dt w)) = (STOPPED, server_ w, None, None, None) /\
  state_writes (snd (elapse dt w)) = [STOPPING; STOPPED] /\
  count is_session_new (snd (elapse dt w)) = 0 /\
  count is_error_report (snd (elapse dt w)) = 1.
Proof.
  intros Hw Htm Hd. destruct w as [st srv ses tm px q h c n].
  simpl in Htm, Hd. subst tm. destruct t as [d cb]. simpl in Hd.
  unfold elapse; cbn [session_attach_timer_ set_now now deadline callback].
  destruct (Nat.leb_spec d (n + dt)); [|lia].
  destruct st; try discriminate Hw; destruct cb, ses as [s|]; repeat split.
Qed.

Lemma quiet_run_until_deadline es : forall w t,
  forallb (quiet filePath) es = true ->
  waiting w = true -> session_attach_timer_ w = Some t ->
  now w < deadline t -> deadline t <= now w + elapsed es ->
  members (fst (run filePath es w)) = (STOPPED, server_ w, None, None, None) /\
  state_writes (snd (run filePath es w)) = [STOPPING; STOPPED] /\
  count is_session_new (snd (run filePath es w)) = 0 /\
  count is_error_report (snd (run filePath es w)) = 1.
Proof.
  induction es as [|e es IH]; intros w t Hq Hw Htm Hlt Hle.
  - simpl in Hle. lia.
  - cbn [forallb] in Hq. apply andb_true_iff in Hq. destruct Hq as [Hq Hqs].
    assert (Hel : elapsed (e :: es) = duration e + elapsed es)
      by (destruct e; try discriminate Hq; reflexivity).
    rewrite Hel in Hle.
    change (fst (run filePath (e :: es) w))
      with (fst (run filePath es (fst (step filePath e w)))).
    rewrite snd_run_cons, state_writes_app, !count_app.
    destruct (Nat.le_gt_cases (deadline t) (now w + duration e)) as [Hfire|Hwait].
    + destruct e as [l sid a b|l|id peer|dt| | |]; try discriminate Hq;
        cbn [duration] in Hfire; try lia.
      cbn [step].
      destruct (timer_fires w t dt Hw Htm Hfire) as (M & S1 & S2 & S3).
      destruct (quiet_run_idle es (fst (elapse dt w)) Hqs) as (M' & N').
      { unfold members in M. inversion M. reflexivity. }
      destruct (noise_is_no_transition _ N') as (N1 & N2 & N3).
      rewrite M', M, S1, S2, S3, N1, N2, N3. repeat split.
    + destruct (quiet_step_idle e w Hq) as (M & Hnow & N).
      { intros t' E. rewrite Htm in E. inversion E; subst. exact Hwait. }
      destruct (noise_is_no_transition _ N) as (N1 & N2 & N3).
      unfold members in M. inversion M as [[Mst Msrv Mses Mtm Mpx]].
      destruct (IH (fst (step filePath e w)) t Hqs) as (M' & S1 & S2 & S3).
      * unfold waiting. rewrite Mst. exact Hw.
      * rewrite Mtm. exact Htm.
      * lia.
      * lia.
      * rewrite M', S1, S2, S3, N1, N2, N3, Msrv. repeat split.
Qed.

(** X9.  A manager that waits, be it for the first connection or, after
    the session was lost, in the re-attach window with a Fake session
    bound, and then sees a minute pass without a connection from the
    worker, ends in [STOPPED]: the error path runs through exactly once,
    the session is unbound and given up, no further Fake session is
    created, and the server is left as it was. *)
Theorem X9_waiting_ends_after_a_minute (w : World) (es : list Event) :
  reachable filePath w ->
  waiting w = true ->
  forallb (quiet filePath) es = true ->
  minutes 1 <= elapsed es ->
  let r := run filePath es w in
  members (fst r) = (STOPPED, server_ w, None, None, None) /\
  state_writes (snd r) = [STOPPING; STOPPED] /\
  count is_session_new (snd r) = 0 /\
  count is_error_report (snd r) = 1.
Proof.
  intros R Hw Hq Hmin r. subst r.
  destruct (reachable_Inv filePath w R) as [Ht _ _ _].
  unfold timer_ok in Ht. unfold waiting in Hw.
  assert (Htm : exists t, session_attach_timer_ w = Some t /\
                          now w < deadline t /\ deadline t <= now w + minutes 1)
    by (destruct (state_ w); try discriminate Hw; exact Ht).
  destruct Htm as (t & E & H1 & H2).
  apply (quiet_run_until_deadline es w t Hq); try assumption. lia.
Qed.

End HostWindows.

Section HostSafety.

Variable filePath : Path.

Ltac evaluate := cbv -[Nat.add Nat.mul Nat.leb Nat.eqb String.eqb app].

(** ** Callbacks and destruction *)




(** ** Whom the manager talks to *)

Lemma peer_ok_attachSession location session_id start_ok create_ok w :
  peer_ok filePath w ->
  peer_ok filePath (fst (attachSession location session_id start_ok create_ok w)).
Proof.
  unfold peer_ok. intros H. destruct w as [st srv ses tm px q h c n].
  simpl in H.
  destruct st, start_ok, create_ok, ses as [s0|], srv as [v|];
    evaluate; intros s ch E K; try discriminate E;
    destruct (H s ch E K) as [P L]; (split; [exact P|]); cbv -[Nat.add Nat.mul Nat.leb Nat.eqb String.eqb app] in L; lia.
Qed.

Lemma peer_ok_dettachSession location w :
  peer_ok filePath w -> peer_ok filePath (fst (dettachSession location w)).
Proof.
  unfold peer_ok. intros H. destruct w as [st srv ses tm px q h c n].
  simpl in H.
  destruct st, ses as [s0|]; evaluate; intros s ch E K;
    try discriminate E; try (apply (H s ch E K));
    inversion E; subst; discriminate K.
Qed.

Lemma peer_ok_deliver id peer w :
  Inv w -> peer_ok filePath w -> peer_ok filePath (fst (deliver filePath id peer w)).
Proof.
  intros [_ _ _ Hv] H. unfold deliver.
  destruct (server_ w) as [v|] eqn:Ev; [|exact H].
  destruct (server_endpoint v) as [id'|] eqn:Eid; [|exact H].
  destruct (Nat.eqb_spec id id') as [<-|_]; [|exact H].
  pose proof (Hv v id Ev Eid) as Hid.
  unfold onNewConnection, ifc; cbn [peerFilePath].
  destruct (String.eqb_spec filePath peer) as [<-|_]; [|exact H].
  unfold peer_ok. destruct w as [st srv ses tm px q h c n].
  simpl in Ev, Hid. subst srv.
  destruct ses as [s0|]; evaluate; intros s ch E K;
    inversion E; subst; cbv -[Nat.add Nat.mul Nat.leb Nat.eqb String.eqb app] in K; inversion K; subst;
    (split; [reflexivity|]); evaluate; lia.
Qed.

Lemma peer_ok_elapse dt w :
  peer_ok filePath w -> peer_ok filePath (fst (elapse dt w)).
Proof.
  unfold peer_ok. intros H. destruct w as [st srv ses tm px q h c n].
  simpl in H.
  unfold elapse; cbn [session_attach_timer_ set_now now].
  destruct tm as [[d cb]|]; cbn [deadline callback]; [|exact H].
  destruct (d <=? n + dt); [|exact H].
  destruct st, cb, ses as [s0|]; evaluate; intros s ch E K;
    try discriminate E; apply (H s ch E K).
Qed.

Lemma peer_ok_step e w :
  Inv w -> peer_ok filePath w -> peer_ok filePath (fst (step filePath e w)).
Proof.
  intros I H. destruct e; cbn [step].
  - apply peer_ok_attachSession, H.
  - apply peer_ok_dettachSession, H.
  - apply peer_ok_deliver; assumption.
  - apply peer_ok_elapse, H.
  - unfold ifc. destruct (is_some _); exact H.
  - unfold ifc. destruct (is_some _); [|exact H].
    apply peer_ok_dettachSession, H.
  - exact H.
Qed.

Lemma peer_ok_run es : forall w,
  Inv w -> peer_ok filePath w -> peer_ok filePath (fst (run filePath es w)).
Proof.
  induction es as [|e es IH]; intros w I H; [exact H|].
  change (fst (run filePath (e :: es) w))
    with (fst (run filePath es (fst (step filePath e w)))).
  apply IH; [apply Inv_step, I | apply peer_ok_step; assumption].
Qed.

(** X11.  Whatever connects and whenever, a Channel-backed session the
    manager owns always wraps a connection whose peer is the worker
    executable and which was made on an identifier the manager generated
    before. *)
Theorem X11_owned_session_is_the_worker
    (w : World) (s : DesktopSession) (channel : IpcChannel) :
  reachable filePath w ->
  session_ w = Some s -> session_kind s = DesktopSessionIpc channel ->
  peerFilePath channel = filePath /\ channel_name channel < channel_next w.
Proof.
  intros (clock & es & ->). apply peer_ok_run.
  - apply Inv_ctor.
  - intros s0 ch E. discriminate E.
Qed.

End HostSafety.

(** ** Concrete instances *)

Lemma X2_witness :
  reachable worker detached_world /\
  is_some (session_attach_timer_ detached_world) = waiting detached_world.
Proof.
  split; [apply reachable_run|].
  apply (X2_timer_armed_iff_waiting worker detached_world (reachable_run _ _)).
Defined.

Lemma X3_witness :
  reachable worker attached_world /\
  state_ attached_world = ATTACHED /\
  elapse 3600 attached_world = (set_now 3600 attached_world, []).
Proof.
  split; [apply reachable_run|]. split; [reflexivity|].
  apply (proj2 (proj2 (X3_attached_is_stable worker attached_world
                         (reachable_run _ _) eq_refl)) 3600).
Defined.


Lemma X7_witness :
  state_ (ctor 0) <> ATTACHED /\
  true && false = false /\
  members (fst (attachSession from_caller 7 true false (ctor 0))) =
    (STOPPED, Some {| server_obj := 0; server_endpoint := Some 0 |},
     None, None, None).
Proof.
  assert (H : state_ (ctor 0) <> ATTACHED) by discriminate.
  split; [exact H|]. split; [reflexivity|].
  apply (X7_attach_failure_stops (ctor 0) from_caller 7 true false H eq_refl).
Defined.


Lemma X9_witness :
  reachable worker detached_world /\
  waiting detached_world = true /\
  forallb (quiet worker) [EvElapse 30; EvConnect 0 intruder; EvElapse 30] = true /\
  minutes 1 <= elapsed [EvElapse 30; EvConnect 0 intruder; EvElapse 30] /\
  state_writes
    (snd (run worker [EvElapse 30; EvConnect 0 intruder; EvElapse 30]
            detached_world)) = [STOPPING; STOPPED].
Proof.
  assert (H1 : reachable worker detached_world) by apply reachable_run.
  assert (H2 : waiting detached_world = true) by reflexivity.
  assert (H3 : forallb (quiet worker)
                 [EvElapse 30; EvConnect 0 intruder; EvElapse 30] = true)
    by reflexivity.
  assert (H4 : minutes 1 <= elapsed [EvElapse 30; EvConnect 0 intruder; EvElapse 30])
    by (apply Nat.leb_le; reflexivity).
  repeat (split; [assumption|]).
  apply (X9_waiting_ends_after_a_minute worker detached_world _ H1 H2 H3 H4).
Defined.


Lemma X11_witness :
  reachable worker attached_world /\
  peerFilePath {| peerFilePath := worker; channel_name := 0 |} = worker /\
  channel_name {| peerFilePath := worker; channel_name := 0 |}
  < channel_next attached_world.
Proof.
  split; [apply reachable_run|].
  apply (X11_owned_session_is_the_worker worker attached_world
           {| session_obj := 1;
              session_kind := DesktopSessionIpc
                                {| peerFilePath := worker; channel_name := 0 |} |}
           {| peerFilePath := worker; channel_name := 0 |}
           (reachable_run _ _) eq_refl eq_refl).
Defined.

(* ===================================================================== *)
(** * Further properties of the desktop environment *)

Section DesktopFacts.

Import Desktop.

(** X12.  [revertAll] asks for the user token first and goes on only as
    far as each step succeeds: it impersonates only with a token, looks
    for user32.dll only when impersonating, looks up the function only
    in a loaded module, and calls [UpdatePerUserSystemParameters], with
    flags 6, exactly when all four steps succeeded.  It never calls
    [SystemParametersInfoW]. *)
Theorem X12_revertAll_stops_at_first_failure (sys : System) :
  hd_error (revertAll sys) = Some (WTSQueryUserToken (user_token sys)) /\
  (forall ok, In (LoggedOnUser ok) (revertAll sys) <->
              user_token sys = true /\ ok = impersonation sys) /\
  (forall ok, In (GetModuleHandleW ok) (revertAll sys) <->
              user_token sys = true /\ impersonation sys = true /\
              ok = user32 sys) /\
  (forall ok, In (GetProcAddress ok) (revertAll sys) <->
              user_token sys = true /\ impersonation sys = true /\
              user32 sys = true /\ ok = update_proc sys) /\
  (forall flags, In (UpdatePerUserSystemParameters flags) (revertAll sys) <->
                 user_token sys = true /\ impersonation sys = true /\
                 user32 sys = true /\ update_proc sys = true /\ flags = 6) /\
  (forall a u p, ~ In (SystemParametersInfoW a u p) (revertAll sys)).
Proof.
  destruct sys as [[] [] [] []]; cbv [revertAll user_token impersonation user32
    update_proc negb hd_error In];
    repeat split; try unfold not; intros;
    repeat match goal with
           | H : _ \/ _ |- _ => destruct H
           | H : _ /\ _ |- _ => destruct H
           | H : False |- _ => destruct H
           | H : _ = _ |- _ => first [discriminate H | inversion H; clear H; subst]
           end;
    try reflexivity; try discriminate; try tauto; auto 10;
    try solve [repeat first [left; reflexivity | right]].
Qed.

(** X13.  [applyNewSettings] only ever switches off: it makes one call for
    a disabled wallpaper, one for disabled font smoothing and eleven for
    disabled effects, and none at all when the three flags are all set;
    every call is a [SystemParametersInfoW] with a zero, empty or FALSE
    argument. *)
Theorem X13_applyNewSettings_only_disables (d : DesktopEnvironment) :
  length (applyNewSettings d) =
    (if wallpaper_ d then 0 else 1) + (if font_smoothing_ d then 0 else 1) +
    (if effects_ d then 0 else 11) /\
  (applyNewSettings d = [] <->
   wallpaper_ d && font_smoothing_ d && effects_ d = true) /\
  (forall call, In call (applyNewSettings d) ->
     exists a u p, call = SystemParametersInfoW a u p /\
                   p <> PvAnimationInfo true).
Proof.
  destruct d as [[] [] []]; (split; [reflexivity|]); split;
    try (split; [reflexivity | intros _; reflexivity]);
    try (split; intros H; discriminate H);
    cbv [applyNewSettings disableWallpaper disableFontSmoothing disableEffects
         wallpaper_ font_smoothing_ effects_ negb app In];
    intros call H;
    repeat (destruct H as [<-|H];
            [do 3 eexists; split; [reflexivity|discriminate]|]);
    destruct H.
Qed.

(** X14.  A setter stores its argument and touches no other flag, so
    setters of different flags commute on the object: the three flags
    end up the same whichever of the two was called first. *)
Theorem X14_setters_are_independent
    (a b : Setter) (sys1 sys2 : System) (e1 e2 : bool) (d : DesktopEnvironment) :
  a <> b ->
  flag a (fst (set a sys1 e1 d)) = e1 /\
  flag b (fst (set a sys1 e1 d)) = flag b d /\
  fst (set b sys2 e2 (fst (set a sys1 e1 d))) =
  fst (set a sys1 e1 (fst (set b sys2 e2 d))).
Proof.
  intros Hab. destruct d as [wp fs ef].
  destruct a, b; try (exfalso; apply Hab; reflexivity);
    destruct e1, e2, wp, fs, ef; repeat split.
Qed.

End DesktopFacts.

Lemma X14_witness :
  Desktop.Wallpaper <> Desktop.Effects /\
  Desktop.flag Desktop.Effects
    (fst (Desktop.set Desktop.Wallpaper
            {| Desktop.user_token := false; Desktop.impersonation := false;
               Desktop.user32 := false; Desktop.update_proc := false |}
            false
            {| Desktop.wallpaper_ := true; Desktop.font_smoothing_ := true;
               Desktop.effects_ := true |})) = true.
Proof.
  assert (H : Desktop.Wallpaper <> Desktop.Effects) by discriminate.
  split; [exact H|].
  apply (X14_setters_are_independent Desktop.Wallpaper Desktop.Effects
           {| Desktop.user_token := false; Desktop.impersonation := false;
              Desktop.user32 := false; Desktop.update_proc := false |}
           {| Desktop.user_token := false; Desktop.impersonation := false;
              Desktop.user32 := false; Desktop.update_proc := false |}
           false false
           {| Desktop.wallpaper_ := true; Desktop.font_smoothing_ := true;
              Desktop.effects_ := true |} H).
Defined.
